(** * Penguins dashboard (app/app.py): the reactive filter and its sinks

    The dashboard loads the palmerpenguins table once, keeps two user
    inputs (a mass slider and a species checkbox group), derives a filtered
    table from them in [filtered_df], and shows that table through five
    outputs.  This development embeds the pandas operations the program
    calls, the program itself in a state-and-exception monad over the
    session, and proves the properties of the filter and of the outputs. *)

From Stdlib Require Import String Ascii List Bool Arith ZArith QArith Qabs.
From Stdlib Require Import Lia Lqa.
From Stdlib Require Import DecimalString Sorted.
Import ListNotations.

Local Open Scope nat_scope.

(** ** Exceptions and results *)

(** The Python exceptions the modelled operations can raise.  [BadRef] has
    no Python counterpart: it marks a reference outside the object store,
    which a running interpreter never holds. *)
Inductive exn : Type :=
| KeyError (name : string)
| TypeError
| IndexingError
| ValueError
| BadRef.

Inductive result (A : Type) : Type :=
| Ok (a : A)
| Raise (e : exn).

Arguments Ok {A} a.
Arguments Raise {A} e.

Definition result_bind {A B : Type} (r : result A) (k : A -> result B) : result B :=
  match r with
  | Ok a => k a
  | Raise e => Raise e
  end.

Fixpoint result_map {A B : Type} (f : A -> result B) (l : list A) : result (list B) :=
  match l with
  | [] => Ok []
  | a :: l' =>
      result_bind (f a) (fun b =>
      result_bind (result_map f l') (fun bs => Ok (b :: bs)))
  end.

(** ** Rationals as the values of float cells *)

(** A finite float64 is a rational number; the order on floats is the order
    on those rationals. *)
Definition Qltb (x y : Q) : bool :=
  (Qnum x * QDen y <? Qnum y * QDen x)%Z.

Definition Qsum (l : list Q) : Q := fold_right Qplus (0#1)%Q l.

(** ** The pandas fragment *)

Module Pandas.

(** One cell of a table: a string (object columns), a finite number, or the
    missing-value marker NaN. *)
Inductive cell : Type :=
| Str (s : string)
| Num (q : Q)
| NaN.

Definition Series : Type := list cell.

(** A row keeps its index label, which row selection preserves. *)
Record Row : Type := mkRow { label : nat; cells : list cell }.

Record DataFrame : Type := mkDataFrame {
  columns : list string;
  rows : list Row
}.

(** [Index.get_loc]: the position of a column name. *)
Fixpoint get_loc (name : string) (cols : list string) : option nat :=
  match cols with
  | [] => None
  | c :: cols' =>
      if String.eqb name c then Some 0
      else option_map S (get_loc name cols')
  end.

Definition cell_at (i : nat) (r : Row) : cell := nth i (cells r) NaN.

(** [d[name]] with a single column name. *)
Definition getitem_col (d : DataFrame) (name : string) : result Series :=
  match get_loc name (columns d) with
  | Some i => Ok (map (cell_at i) (rows d))
  | None => Raise (KeyError name)
  end.

(** [s.isin(values)] for a tuple of strings. *)
Definition cell_isin (values : list string) (c : cell) : bool :=
  match c with
  | Str s => existsb (String.eqb s) values
  | Num _ => false
  | NaN => false
  end.

Definition isin (s : Series) (values : list string) : list bool :=
  map (cell_isin values) s.

(** [s < m] for an integer [m]: false on NaN, a TypeError on a string. *)
Definition cell_lt (m : Z) (c : cell) : result bool :=
  match c with
  | Num q => Ok (Qltb q (inject_Z m))
  | NaN => Ok false
  | Str _ => Raise TypeError
  end.

Definition lt (s : Series) (m : Z) : result (list bool) :=
  result_map (cell_lt m) s.

(** Row selection by a boolean mask, by position. *)
Fixpoint select (rs : list Row) (mask : list bool) : list Row :=
  match rs, mask with
  | r :: rs', b :: mask' =>
      if b then r :: select rs' mask' else select rs' mask'
  | _, _ => []
  end.

(** [d[mask]] and [d.loc[mask]] with a boolean Series: a new table with the
    same columns and the rows where the mask is true. *)
Definition getitem_mask (d : DataFrame) (mask : list bool) : result DataFrame :=
  if length mask =? length (rows d)
  then Ok (mkDataFrame (columns d) (select (rows d) mask))
  else Raise IndexingError.

Definition loc_mask (d : DataFrame) (mask : list bool) : result DataFrame :=
  getitem_mask d mask.

(** [d[cols]] with a list of column names: a new table with those columns,
    in that order. *)
Definition get_locs (cols : list string) (d : DataFrame) : result (list nat) :=
  result_map
    (fun c => match get_loc c (columns d) with
              | Some i => Ok i
              | None => Raise (KeyError c)
              end)
    cols.

Definition project (locs : list nat) (r : Row) : Row :=
  mkRow (label r) (map (fun i => cell_at i r) locs).

Definition getitem_cols (d : DataFrame) (cols : list string) : result DataFrame :=
  result_bind (get_locs cols d) (fun locs =>
  Ok (mkDataFrame cols (map (project locs) (rows d)))).

(** [d.shape[0]]. *)
Definition shape0 (d : DataFrame) : nat := length (rows d).

(** The numbers of a Series with the missing values skipped; a string makes
    the reduction fail. *)
Fixpoint present (s : Series) : result (list Q) :=
  match s with
  | [] => Ok []
  | Str _ :: _ => Raise TypeError
  | Num q :: s' => result_bind (present s') (fun l => Ok (q :: l))
  | NaN :: s' => present s'
  end.

(** *** Formatting with the format specification [.1f] *)

(** The integer nearest to [q], ties going to the even one. *)
Definition round_half_even (q : Q) : Z :=
  let n := Qnum q in
  let d := QDen q in
  let f := (n / d)%Z in
  match (2 * (n mod d) ?= d)%Z with
  | Lt => f
  | Gt => (f + 1)%Z
  | Eq => if Z.even f then f else (f + 1)%Z
  end.

Definition string_of_nat (n : nat) : string :=
  NilZero.string_of_uint (Nat.to_uint n).

(** The numeral for [t] tenths, with one digit after the point. *)
Definition show_tenths (negative : bool) (t : nat) : string :=
  ((if negative then "-" else "")
   ++ string_of_nat (t / 10) ++ "." ++ string_of_nat (t mod 10))%string.

(** A number with one digit after the point: the sign of [q], then its
    magnitude rounded to tenths. *)
Definition one_decimal (q : Q) : string :=
  show_tenths (Qnum q <? 0)%Z
              (Z.to_nat (Z.abs (round_half_even (q * inject_Z 10)%Q))).

(** [format(x, ".1f")] for a float [x]. *)
Definition format_1f (c : cell) : result string :=
  match c with
  | NaN => Ok "nan"%string
  | Num q => Ok (one_decimal q)
  | Str _ => Raise ValueError
  end.

(** *** Float64 arithmetic *)

(** [a / d * 2 ^ (- e)] as a fraction, for positive [a] and [d]. *)
Definition scale2 (a d e : Z) : Q :=
  if (0 <=? e)%Z
  then a # Z.to_pos (d * 2 ^ e)
  else (a * 2 ^ (- e)) # Z.to_pos d.

(** The float64 nearest to [q], ties going to the even significand: the
    magnitude is scaled by a power of two into [2 ^ 52, 2 ^ 53), rounded
    to an integer and scaled back.  The exponent range is taken as
    unbounded: no overflow and no underflow. *)
Definition f64_round (q : Q) : Q :=
  let n := Qnum q in
  if (n =? 0)%Z then 0%Q
  else
    let a := Z.abs n in
    let d := QDen q in
    let e0 := (Z.log2 a - Z.log2 d - 53)%Z in
    let e := if Qle_bool (inject_Z (2 ^ 53)) (scale2 a d e0)
             then (e0 + 1)%Z else e0 in
    let m := round_half_even (scale2 a d e) in
    let r := if (0 <=? e)%Z
             then inject_Z (m * 2 ^ e)
             else m # Z.to_pos (2 ^ (- e)) in
    Qred (if (n <? 0)%Z then (- r)%Q else r).

(** The float64 sum of an array of values.  Which additions are made, and
    so the last bits of the result, is the library's business (numpy adds
    pairwise in blocks, bottleneck in a loop): the sum is an interface,
    and what is proved of the program holds for every summation. *)
Class Float64Sum : Type := { f64_sum : list Q -> Q }.

(** Summation from left to right, each value and each partial sum rounded
    to float64: the order of bottleneck's loop, and of numpy's on an array
    of fewer than eight cells. *)
Definition f64_sequential_sum (l : list Q) : Q :=
  fold_left (fun acc x => f64_round (acc + f64_round x)%Q) l 0%Q.

Definition sequential_sum : Float64Sum :=
  {| f64_sum := f64_sequential_sum |}.

(** The value a cell adds to the sum: a missing value counts as 0. *)
Definition fill0 (c : cell) : Q :=
  match c with
  | Num q => q
  | _ => 0%Q
  end.

Section Mean.
Context {F : Float64Sum}.

(** [s.mean()] (skipna is on by default): NaN when no value is present;
    otherwise the float64 sum of the values, the missing ones filled with
    0, divided in float64 by the number of values present. *)
Definition mean (s : Series) : result cell :=
  result_bind (present s) (fun l =>
  match l with
  | [] => Ok NaN
  | _ :: _ =>
      Ok (Num (f64_round (f64_sum (map fill0 s)
                          / inject_Z (Z.of_nat (length l)))%Q))
  end).

End Mean.

End Pandas.

(** ** The application *)

Module App.
Import Pandas.

(** *** Session state and the monad of the program *)

(** Tables are Python objects: the program holds references to them.  The
    store only grows; a reference is a position in it. *)
Definition ref : Type := nat.

Definition filter_state : Type := (list string * Z)%type.

(** A session: the object store, the two inputs, and the state of the
    reactive calculation behind [filtered_df]. *)
Record Session : Type := mkSession {
  heap : list DataFrame;
  species_value : list string;
  mass_value : Z;
  calc_cache : option (filter_state * result ref);
  exec_count : nat
}.

Definition M (A : Type) : Type := Session -> result A * Session.

Definition ret {A : Type} (a : A) : M A := fun s => (Ok a, s).

Definition bind {A B : Type} (m : M A) (k : A -> M B) : M B :=
  fun s =>
    match m s with
    | (Ok a, s') => k a s'
    | (Raise e, s') => (Raise e, s')
    end.

Definition lift {A : Type} (r : result A) : M A := fun s => (r, s).

Notation "x <- m ;; k" := (bind m (fun x => k))
  (at level 61, m at next level, right associativity).

Definition deref (r : ref) : M DataFrame :=
  fun s =>
    match nth_error (heap s) r with
    | Some d => (Ok d, s)
    | None => (Raise BadRef, s)
    end.

Definition with_heap (s : Session) (h : list DataFrame) : Session :=
  mkSession h (species_value s) (mass_value s) (calc_cache s) (exec_count s).

Definition alloc (d : DataFrame) : M ref :=
  fun s => (Ok (length (heap s)), with_heap s (heap s ++ [d])).

(** The pandas operations on references: each one that yields a table
    allocates a new object. *)
Definition getitem (r : ref) (name : string) : M Series :=
  d <- deref r ;; lift (getitem_col d name).

Definition getitem_bool (r : ref) (mask : list bool) : M ref :=
  d <- deref r ;; d' <- lift (getitem_mask d mask) ;; alloc d'.

Definition loc_bool (r : ref) (mask : list bool) : M ref :=
  d <- deref r ;; d' <- lift (loc_mask d mask) ;; alloc d'.

Definition getitem_list (r : ref) (cols : list string) : M ref :=
  d <- deref r ;; d' <- lift (getitem_cols d cols) ;; alloc d'.

(** [input.species()] and [input.mass()]. *)
Definition input_species : M (list string) := fun s => (Ok (species_value s), s).
Definition input_mass : M Z := fun s => (Ok (mass_value s), s).

(** *** The program *)

(** [df = palmerpenguins.load_penguins()]: the first object of the store. *)
Definition df : ref := 0.

(** The sidebar controls: [ui.input_slider("mass", "Mass", 2000, 6000, 6000)]
    and the checkbox group with all three species selected. *)
Definition mass_min : Z := 2000.
Definition mass_max : Z := 6000.
Definition mass_default : Z := 6000.
Definition species_choices : list string :=
  ["Adelie"; "Gentoo"; "Chinstrap"]%string.
Definition species_selected : list string :=
  ["Adelie"; "Gentoo"; "Chinstrap"]%string.

(** The session right after the module body has run on the table [d]. *)
Definition start (d : DataFrame) : Session :=
  mkSession [d] species_selected mass_default None 0.

(** The body of [filtered_df] (app.py, lines 134-138). *)
Definition filtered_df_body : M ref :=
  species_col <- getitem df "species" ;;
  sel <- input_species ;;
  filt_df <- getitem_bool df (isin species_col sel) ;;
  mass_col <- getitem filt_df "body_mass_g" ;;
  m <- input_mass ;;
  mask <- lift (lt mass_col m) ;;
  loc_bool filt_df mask.

Definition filter_state_eqb (a b : filter_state) : bool :=
  (if list_eq_dec string_dec (fst a) (fst b) then true else false)
  && (snd a =? snd b)%Z.

(** Modelled from the spec: the memoisation that the decorator
    [@reactive.calc] (shiny, not part of this repository) puts around the
    body.  The result is cached against a snapshot of the two filter values;
    the body runs again, and the recomputation counter goes up, only when
    the current values differ from the snapshot of the previous
    computation. *)
Definition reactive_calc (body : M ref) : M ref :=
  fun s =>
    let key := (species_value s, mass_value s) in
    let recompute :=
      let '(v, s') := body s in
      (v, mkSession (heap s') (species_value s') (mass_value s')
                    (Some (key, v)) (S (exec_count s'))) in
    match calc_cache s with
    | Some (k, v) => if filter_state_eqb k key then (v, s) else recompute
    | None => recompute
    end.

(** [filtered_df] as the rest of the program sees it (lines 132-138). *)
Definition filtered_df : M ref := reactive_calc filtered_df_body.

Section Outputs.
Context {F : Float64Sum}.

(** [count] (lines 62-65). *)
Definition count : M nat :=
  v <- filtered_df ;; d <- deref v ;; ret (shape0 d).

(** [bill_length] (lines 71-74). *)
Definition bill_length : M string :=
  v <- filtered_df ;;
  col <- getitem v "bill_length_mm" ;;
  m <- lift (mean col) ;;
  txt <- lift (format_1f m) ;;
  ret (txt ++ " mm")%string.

(** [bill_depth] (lines 80-83). *)
Definition bill_depth : M string :=
  v <- filtered_df ;;
  col <- getitem v "bill_depth_mm" ;;
  m <- lift (mean col) ;;
  txt <- lift (format_1f m) ;;
  ret (txt ++ " mm")%string.

(** What [length_depth] hands to seaborn (lines 91-108): the table and the
    names of the columns to plot, then the labels set on the axes. *)
Record Figure : Type := mkFigure {
  fig_data : ref;
  fig_x : string;
  fig_y : string;
  fig_hue : string;
  fig_xlabel : string;
  fig_ylabel : string;
  fig_legend_title : string
}.

Definition length_depth : M Figure :=
  v <- filtered_df ;;
  ret (mkFigure v "bill_length_mm" "bill_depth_mm" "species"
                "Bill Length (mm)" "Bill Depth (mm)" "Species").

(** [render.DataGrid(data, filters=True)]. *)
Record DataGrid : Type := mkDataGrid { grid_data : ref; grid_filters : bool }.

Definition grid_cols : list string :=
  ["species"; "island"; "bill_length_mm"; "bill_depth_mm"; "body_mass_g"]%string.

(** [summary_statistics] (lines 115-126). *)
Definition summary_statistics : M DataGrid :=
  let cols := grid_cols in
  v <- filtered_df ;;
  g <- getitem_list v cols ;;
  ret (mkDataGrid g true).

(** *** The events of a session *)

(** The runtime changes an input when the user moves the slider or ticks a
    box, and calls an output function when it renders that output. *)
Definition set_mass (m : Z) (s : Session) : Session :=
  mkSession (heap s) (species_value s) m (calc_cache s) (exec_count s).

Definition set_species (sel : list string) (s : Session) : Session :=
  mkSession (heap s) sel (mass_value s) (calc_cache s) (exec_count s).

Inductive output : Type :=
| Count
| BillLength
| BillDepth
| LengthDepth
| SummaryStatistics.

Inductive event : Type :=
| MassChanged (m : Z)
| SpeciesChanged (sel : list string)
| Render (o : output).

Definition render (o : output) (s : Session) : Session :=
  match o with
  | Count => snd (count s)
  | BillLength => snd (bill_length s)
  | BillDepth => snd (bill_depth s)
  | LengthDepth => snd (length_depth s)
  | SummaryStatistics => snd (summary_statistics s)
  end.

Definition step (s : Session) (e : event) : Session :=
  match e with
  | MassChanged m => set_mass m s
  | SpeciesChanged sel => set_species sel s
  | Render o => render o s
  end.

Definition run (s : Session) (trace : list event) : Session :=
  fold_left step trace s.

(** [n] calls of [filtered_df()] in a row. *)
Fixpoint reads (n : nat) : M (list ref) :=
  match n with
  | 0 => ret []
  | S n' => r <- filtered_df ;; rs <- reads n' ;; ret (r :: rs)
  end.

End Outputs.

End App.

(** ** What the specification talks about *)

Module Spec.
Import Pandas App.

(** The cell of row [r] in the column called [name] of a table with the
    columns of [d]. *)
Definition field (name : string) (d : DataFrame) (r : Row) : option cell :=
  option_map (fun i => cell_at i r) (get_loc name (columns d)).

(** The filter predicate: the species of the row is one of the selected
    ones and its body mass is a number strictly below the bound. *)
Definition satisfies (d : DataFrame) (sel : list string) (m : Z) (r : Row) : Prop :=
  exists sp q,
    field "species" d r = Some (Str sp) /\ In sp sel /\
    field "body_mass_g" d r = Some (Num q) /\ (q < inject_Z m)%Q.

Definition keep (d : DataFrame) (sel : list string) (m : Z) (r : Row) : bool :=
  match field "species" d r, field "body_mass_g" d r with
  | Some (Str sp), Some (Num q) =>
      existsb (String.eqb sp) sel && Qltb q (inject_Z m)
  | _, _ => false
  end.

(** The truth value of [c < m] where the comparison is defined. *)
Definition cell_ltb (m : Z) (c : cell) : bool :=
  match c with
  | Num q => Qltb q (inject_Z m)
  | _ => false
  end.

(** The derived view: the rows of the base table that satisfy the filter
    predicate, under the columns of the base table. *)
Definition view_of (d : DataFrame) (sel : list string) (m : Z) : DataFrame :=
  mkDataFrame (columns d) (filter (keep d sel m) (rows d)).

(** *** The shape of the loaded table *)

Definition is_str (c : cell) : bool :=
  match c with Str _ => true | _ => false end.

Definition is_float (c : cell) : bool :=
  match c with Str _ => false | _ => true end.

Definition column_all (p : cell -> bool) (name : string) (d : DataFrame) : bool :=
  match get_loc name (columns d) with
  | Some i => forallb (fun r => p (cell_at i r)) (rows d)
  | None => false
  end.

Definition well_formed (d : DataFrame) : bool :=
  forallb (fun r => length (cells r) =? length (columns d)) (rows d).

(** What the program needs of the table that [load_penguins] returns: rows
    as wide as the header, string columns for species and island, and float
    columns (numbers or NaN) for the two bill measurements and the mass. *)
Definition penguins_schema (d : DataFrame) : bool :=
  well_formed d
  && column_all is_str "species" d
  && column_all is_str "island" d
  && column_all is_float "bill_length_mm" d
  && column_all is_float "bill_depth_mm" d
  && column_all is_float "body_mass_g" d.

(** *** Sessions the program can be in *)

(** The cache of the reactive calculation, when filled, holds a reference
    to the derived view of the filter state it was computed for. *)
Definition cache_coherent (d : DataFrame) (s : Session) : Prop :=
  match calc_cache s with
  | None => True
  | Some (k, v) =>
      exists r, v = Ok r /\ nth_error (heap s) r = Some (view_of d (fst k) (snd k))
  end.

Definition session_ok (d : DataFrame) (s : Session) : Prop :=
  nth_error (heap s) df = Some d /\
  penguins_schema d = true /\
  cache_coherent d s.

(** The cache holds a result for the current filter state. *)
Definition cache_hit (s : Session) : bool :=
  match calc_cache s with
  | Some (k, _) => filter_state_eqb k (species_value s, mass_value s)
  | None => false
  end.

(** Calling [filtered_df()] in session [s] returns a reference to the
    table [v] and leaves the session [s']. *)
Definition reads_view (s : Session) (v : DataFrame) (s' : Session) : Prop :=
  exists r, filtered_df s = (Ok r, s') /\ nth_error (heap s') r = Some v.

(** A computation that leaves every object of the store as it is and at
    most allocates new ones. *)
Definition grows {A : Type} (m : M A) : Prop :=
  forall s, exists ext, heap (snd (m s)) = heap s ++ ext.

(** A computation that leaves the session as it is. *)
Definition reads_only {A : Type} (m : M A) : Prop :=
  forall s, snd (m s) = s.

(** *** The metrics *)

(** The numbers in column [name] of the rows [rs], missing values left
    out. *)
Definition numbers (name : string) (d : DataFrame) (rs : list Row) : list Q :=
  flat_map (fun r => match field name d r with
                     | Some (Num q) => [q]
                     | _ => []
                     end) rs.

Definition arithmetic_mean (l : list Q) : Q :=
  (Qsum l / inject_Z (Z.of_nat (length l)))%Q.

(** The unit roundoff of float64: the relative error of one rounding is at
    most this. *)
Definition f64_unit : Q := 1 # 2 ^ 53.

(** How a bound [c] on the error of a partial sum, relative to the sum of
    the magnitudes, grows when one more value is added from the left: the
    value is rounded, then the sum. *)
Definition error_step (c : Q) : Q :=
  ((c + f64_unit) * (1 + f64_unit) + f64_unit)%Q.

Fixpoint error_steps (n : nat) (c : Q) : Q :=
  match n with
  | O => c
  | S k => error_steps k (error_step c)
  end.

(** The bound after [n] values, and the bound for their mean, which adds
    the rounding of the division. *)
Definition sum_error (n : nat) : Q := error_steps n 0.

Definition mean_error (n : nat) : Q :=
  (sum_error n + f64_unit * (1 + sum_error n))%Q.

(** [2 ^ e] as the quotient of two positive integers. *)
Definition up2 (e : Z) : Z := 2 ^ Z.max e 0.
Definition down2 (e : Z) : Z := 2 ^ Z.max (- e) 0.

(** The values of column [name] in the rows [rs] as they enter the sum: 0
    where the value is missing. *)
Definition filled (name : string) (d : DataFrame) (rs : list Row) : list Q :=
  map (fun r => match field name d r with
                | Some (Num q) => q
                | _ => 0%Q
                end) rs.

Section MeanText.
Context {F : Float64Sum}.

(** The float64 mean of column [name] over the rows [rs]: the float64 sum
    of its values divided, in float64, by the number of values present. *)
Definition float_mean (name : string) (d : DataFrame) (rs : list Row) : Q :=
  f64_round (f64_sum (filled name d rs)
             / inject_Z (Z.of_nat (length (numbers name d rs))))%Q.

(** The text of a mean metric of column [name] over the rows [rs]. *)
Definition mean_text (name : string) (d : DataFrame) (rs : list Row) : string :=
  match numbers name d rs with
  | [] => "nan mm"%string
  | _ :: _ => (one_decimal (float_mean name d rs) ++ " mm")%string
  end.

End MeanText.

(** *** Sample tables *)

Definition penguin_columns : list string :=
  ["species"; "island"; "bill_length_mm"; "bill_depth_mm";
   "flipper_length_mm"; "body_mass_g"; "sex"; "year"]%string.

Definition adelie_row : Row :=
  mkRow 0 [Str "Adelie"; Str "Torgersen"; Num (391 # 10); Num (187 # 10);
           Num (181 # 1); Num (3750 # 1); Str "male"; Num (2007 # 1)].

Definition missing_row : Row :=
  mkRow 3 [Str "Adelie"; Str "Torgersen"; NaN; NaN; NaN; NaN; NaN;
           Num (2007 # 1)].

Definition gentoo_row : Row :=
  mkRow 169 [Str "Gentoo"; Str "Biscoe"; Num (488 # 10); Num (162 # 10);
             Num (222 # 1); Num (6000 # 1); Str "male"; Num (2009 # 1)].

Definition chinstrap_row : Row :=
  mkRow 314 [Str "Chinstrap"; Str "Dream"; Num (469 # 10); Num (166 # 10);
             Num (192 # 1); Num (2700 # 1); Str "female"; Num (2008 # 1)].

Definition sample_df : DataFrame :=
  mkDataFrame penguin_columns
    [adelie_row; missing_row; gentoo_row; chinstrap_row].

(** No missing mass, the heaviest bird exactly at the top of the slider. *)
Definition heavy_df : DataFrame :=
  mkDataFrame penguin_columns [adelie_row; gentoo_row; chinstrap_row].

(** No missing mass, every bird below the top of the slider. *)
Definition light_df : DataFrame :=
  mkDataFrame penguin_columns [adelie_row; chinstrap_row].

(** Tables that [load_penguins] does not return: one without the species
    column, one without the mass column, one with a text in the mass
    column of its Gentoo row. *)
Definition no_species_df : DataFrame :=
  mkDataFrame ["island"; "body_mass_g"]%string
    [mkRow 0 [Str "Dream"; Num (3000 # 1)]].

Definition no_mass_df : DataFrame :=
  mkDataFrame ["species"; "island"]%string
    [mkRow 0 [Str "Adelie"; Str "Dream"]].

Definition text_mass_df : DataFrame :=
  mkDataFrame ["species"; "body_mass_g"]%string
    [mkRow 0 [Str "Adelie"; Num (3750 # 1)];
     mkRow 1 [Str "Gentoo"; Str "heavy"]].

(** Two Adelie birds of 2850 g, with bill lengths 36.5 and 36.4 and bill
    depths 16.6 and 17.1. *)
Definition biscoe_df : DataFrame :=
  mkDataFrame penguin_columns
    [mkRow 58 [Str "Adelie"; Str "Biscoe"; Num (365 # 10); Num (166 # 10);
               Num (181 # 1); Num (2850 # 1); Str "female"; Num (2008 # 1)];
     mkRow 64 [Str "Adelie"; Str "Biscoe"; Num (364 # 10); Num (171 # 10);
               Num (184 # 1); Num (2850 # 1); Str "female"; Num (2008 # 1)]].

(** A sequence of events of a session. *)
Definition sample_trace : list event :=
  [Render Count; MassChanged 4000; Render SummaryStatistics;
   MassChanged 6000; Render BillLength;
   SpeciesChanged ["Adelie"%string]; MassChanged 4000].

(** A session on the sample table with only Adelie ticked and the slider
    at 4000. *)
Definition adelie_session : Session :=
  set_species ["Adelie"%string] (set_mass 4000 (start sample_df)).

End Spec.

Import Pandas App Spec.

Create HintDb grows discriminated.

(** Case analysis on the rows of a concrete table. *)
Ltac each_row H :=
  cbn [rows sample_df heavy_df light_df] in H;
  repeat (destruct H as [H|H]; [subst|]); [..|destruct H].

Section Proofs.
Context {F : Float64Sum}.

(** ** Basic facts *)

Lemma Qltb_lt (x y : Q) : Qltb x y = true <-> (x < y)%Q.
Proof. unfold Qltb, Qlt. apply Z.ltb_lt. Qed.

Lemma existsb_eqb_In (x : string) (l : list string) :
  existsb (String.eqb x) l = true <-> In x l.
Proof.
  rewrite existsb_exists. split.
  - intros [y [Hy He]]. apply String.eqb_eq in He. now subst.
  - intros H. exists x. split; [assumption | apply String.eqb_refl].
Qed.

Lemma result_map_total {A B : Type} (f : A -> result B) (g : A -> B) (l : list A) :
  (forall a, In a l -> f a = Ok (g a)) -> result_map f l = Ok (map g l).
Proof.
  induction l as [|a l IH]; intros H; simpl.
  - reflexivity.
  - rewrite (H a (or_introl eq_refl)). simpl.
    rewrite IH by (intros b Hb; apply H; now right). reflexivity.
Qed.

Lemma select_map (f : Row -> bool) (rs : list Row) :
  select rs (map f rs) = filter f rs.
Proof.
  induction rs as [|r rs IH]; simpl; [reflexivity|].
  destruct (f r); now rewrite IH.
Qed.

Lemma filter_filter {A : Type} (f g : A -> bool) (l : list A) :
  filter g (filter f l) = filter (fun a => f a && g a) l.
Proof.
  induction l as [|a l IH]; simpl; [reflexivity|].
  destruct (f a); simpl; [destruct (g a)|]; now rewrite IH.
Qed.

Lemma filter_length_le {A : Type} (f g : A -> bool) (l : list A) :
  (forall a, In a l -> f a = true -> g a = true) ->
  length (filter f l) <= length (filter g l).
Proof.
  induction l as [|a l IH]; intros H; simpl; [lia|].
  assert (IH' : length (filter f l) <= length (filter g l))
    by (apply IH; intros b Hb; apply H; now right).
  destruct (f a) eqn:Ef.
  - rewrite (H a (or_introl eq_refl) Ef). simpl. lia.
  - destruct (g a); simpl; lia.
Qed.

(** The boolean filter decides the filter predicate. *)
Lemma keep_satisfies (d : DataFrame) (sel : list string) (m : Z) (r : Row) :
  keep d sel m r = true <-> satisfies d sel m r.
Proof.
  unfold keep, satisfies. split.
  - destruct (field "species" d r) as [[sp| |]|]; try discriminate.
    destruct (field "body_mass_g" d r) as [[|q|]|]; try discriminate.
    intros H. apply andb_true_iff in H. destruct H as [Hs Hm].
    exists sp, q. repeat split; try reflexivity.
    + now apply existsb_eqb_In.
    + now apply Qltb_lt.
  - intros [sp [q [Hs [Hin [Hm Hlt]]]]]. rewrite Hs, Hm.
    apply andb_true_iff. split.
    + now apply existsb_eqb_In.
    + now apply Qltb_lt.
Qed.

Lemma column_all_spec (p : cell -> bool) (name : string) (d : DataFrame) :
  column_all p name d = true ->
  exists i, get_loc name (columns d) = Some i /\
            forall r, In r (rows d) -> p (cell_at i r) = true.
Proof.
  unfold column_all. destruct (get_loc name (columns d)) as [i|]; [|discriminate].
  intros H. exists i. split; [reflexivity|].
  now apply forallb_forall.
Qed.

Lemma penguins_schema_spec (d : DataFrame) :
  penguins_schema d = true ->
  well_formed d = true /\
  column_all is_str "species" d = true /\
  column_all is_str "island" d = true /\
  column_all is_float "bill_length_mm" d = true /\
  column_all is_float "bill_depth_mm" d = true /\
  column_all is_float "body_mass_g" d = true.
Proof.
  unfold penguins_schema. intros H.
  repeat (apply andb_true_iff in H; destruct H as [H ?]). auto 10.
Qed.

(** ** Running the body of [filtered_df] *)

Lemma nth_error_snoc {A : Type} (l : list A) (a : A) :
  nth_error (l ++ [a]) (length l) = Some a.
Proof.
  rewrite nth_error_app2 by lia. now rewrite Nat.sub_diag.
Qed.

Lemma nth_error_app_keep {A : Type} (l ext : list A) (n : nat) (a : A) :
  nth_error l n = Some a -> nth_error (l ++ ext) n = Some a.
Proof.
  intros H. rewrite nth_error_app1; [assumption|].
  apply nth_error_Some. congruence.
Qed.

Lemma bind_run {A B : Type} (m : M A) (k : A -> M B) (s s' : Session) (a : A) :
  m s = (Ok a, s') -> bind m k s = k a s'.
Proof. intros H. unfold bind. now rewrite H. Qed.

Lemma deref_run (r : ref) (d : DataFrame) (s : Session) :
  nth_error (heap s) r = Some d -> deref r s = (Ok d, s).
Proof. intros H. unfold deref. now rewrite H. Qed.

Lemma getitem_run (r : ref) (name : string) (d : DataFrame) (i : nat) (s : Session) :
  nth_error (heap s) r = Some d ->
  get_loc name (columns d) = Some i ->
  getitem r name s = (Ok (map (cell_at i) (rows d)), s).
Proof.
  intros Hr Hi. unfold getitem.
  rewrite (bind_run _ _ _ _ _ (deref_run r d s Hr)).
  unfold lift, getitem_col. now rewrite Hi.
Qed.

Lemma getitem_mask_map (d : DataFrame) (f : Row -> bool) :
  getitem_mask d (map f (rows d)) =
  Ok (mkDataFrame (columns d) (filter f (rows d))).
Proof.
  unfold getitem_mask. now rewrite length_map, Nat.eqb_refl, select_map.
Qed.

Lemma getitem_bool_run (r : ref) (d : DataFrame) (f : Row -> bool) (s : Session) :
  nth_error (heap s) r = Some d ->
  getitem_bool r (map f (rows d)) s =
  (Ok (length (heap s)),
   with_heap s (heap s ++ [mkDataFrame (columns d) (filter f (rows d))])).
Proof.
  intros Hr. unfold getitem_bool.
  rewrite (bind_run _ _ _ _ _ (deref_run r d s Hr)).
  unfold bind at 1. unfold lift. now rewrite getitem_mask_map.
Qed.

Lemma loc_bool_run (r : ref) (d : DataFrame) (f : Row -> bool) (s : Session) :
  nth_error (heap s) r = Some d ->
  loc_bool r (map f (rows d)) s =
  (Ok (length (heap s)),
   with_heap s (heap s ++ [mkDataFrame (columns d) (filter f (rows d))])).
Proof.
  intros Hr. unfold loc_bool, loc_mask.
  rewrite (bind_run _ _ _ _ _ (deref_run r d s Hr)).
  unfold bind at 1. unfold lift. now rewrite getitem_mask_map.
Qed.

Lemma lt_floats (m : Z) (i : nat) (rs : list Row) :
  (forall r, In r rs -> is_float (cell_at i r) = true) ->
  lt (map (cell_at i) rs) m = Ok (map (fun r => cell_ltb m (cell_at i r)) rs).
Proof.
  intros H. unfold lt. rewrite <- (map_map (cell_at i) (cell_ltb m)).
  apply result_map_total. intros c Hc. apply in_map_iff in Hc.
  destruct Hc as (r & <- & Hr). specialize (H r Hr).
  destruct (cell_at i r); simpl in *; [discriminate| |]; reflexivity.
Qed.

Lemma keep_split (d : DataFrame) (sel : list string) (m : Z) (isp im : nat) (r : Row) :
  get_loc "species" (columns d) = Some isp ->
  get_loc "body_mass_g" (columns d) = Some im ->
  keep d sel m r = cell_isin sel (cell_at isp r) && cell_ltb m (cell_at im r).
Proof.
  intros Lsp Lm. unfold keep, field. rewrite Lsp, Lm.
  cbn [option_map].
  destruct (cell_at isp r); cbn [cell_isin andb]; try reflexivity.
  destruct (cell_at im r); cbn [cell_ltb]; now rewrite ?andb_false_r.
Qed.

(** The body reads the base table and the two inputs, allocates the table
    of the selected species and then the derived view, and returns a
    reference to the latter. *)
Lemma filtered_df_body_run (d : DataFrame) (s : Session) :
  nth_error (heap s) df = Some d ->
  penguins_schema d = true ->
  exists mid,
    filtered_df_body s =
    (Ok (S (length (heap s))),
     with_heap s (heap s ++ [mid; view_of d (species_value s) (mass_value s)])).
Proof.
  intros Hd Hs.
  destruct (penguins_schema_spec d Hs) as (_ & Hsp & _ & _ & _ & Hm).
  destruct (column_all_spec _ _ _ Hsp) as (isp & Lsp & Psp).
  destruct (column_all_spec _ _ _ Hm) as (im & Lm & Pm).
  set (sel := species_value s). set (m := mass_value s).
  set (mid := mkDataFrame (columns d)
                (filter (fun r => cell_isin sel (cell_at isp r)) (rows d))).
  exists mid. unfold filtered_df_body.
  rewrite (bind_run _ _ _ _ _ (getitem_run df "species" d isp s Hd Lsp)).
  rewrite (bind_run _ _ s s sel) by reflexivity.
  unfold isin. rewrite map_map.
  rewrite (bind_run _ _ _ _ _ (getitem_bool_run df d _ s Hd)).
  fold mid. set (s1 := with_heap s (heap s ++ [mid])).
  assert (H1 : nth_error (heap s1) (length (heap s)) = Some mid)
    by apply nth_error_snoc.
  rewrite (bind_run _ _ _ _ _ (getitem_run _ "body_mass_g" mid im s1 H1 Lm)).
  rewrite (bind_run _ _ s1 s1 m) by reflexivity.
  assert (Hlt : lift (lt (map (cell_at im) (rows mid)) m) s1 =
                (Ok (map (fun r => cell_ltb m (cell_at im r)) (rows mid)), s1)).
  { unfold lift. rewrite lt_floats; [reflexivity|].
    intros r Hr. apply Pm. apply filter_In in Hr. apply Hr. }
  rewrite (bind_run _ _ _ _ _ Hlt).
  rewrite (loc_bool_run _ mid _ s1 H1).
  assert (E : mkDataFrame (columns mid)
                (filter (fun r => cell_ltb m (cell_at im r)) (rows mid)) =
              view_of d sel m).
  { unfold view_of, mid. cbn [columns rows]. rewrite filter_filter.
    f_equal. apply filter_ext. intros r. symmetry. now apply keep_split. }
  rewrite E. unfold s1, with_heap.
  cbn [heap species_value mass_value calc_cache exec_count].
  rewrite length_app, <- app_assoc. cbn [length app].
  replace (length (heap s) + 1) with (S (length (heap s))) by lia.
  reflexivity.
Qed.

(** ** Running [filtered_df] through its cache *)

Lemma filter_state_eqb_eq (a b : filter_state) :
  filter_state_eqb a b = true <-> a = b.
Proof.
  unfold filter_state_eqb. destruct a as [sa ma], b as [sb mb]. cbn [fst snd].
  destruct (list_eq_dec string_dec sa sb) as [E|N]; cbn [andb].
  - rewrite Z.eqb_eq. split; [intros ->; now subst | now inversion 1].
  - split; [discriminate | inversion 1; contradiction].
Qed.

Lemma session_ok_start (d : DataFrame) :
  penguins_schema d = true -> session_ok d (start d).
Proof. intros H. repeat split; assumption. Qed.

Lemma session_ok_set_mass (d : DataFrame) (s : Session) (m : Z) :
  session_ok d s -> session_ok d (set_mass m s).
Proof. intros (H1 & H2 & H3). repeat split; assumption. Qed.

Lemma session_ok_set_species (d : DataFrame) (s : Session) (sel : list string) :
  session_ok d s -> session_ok d (set_species sel s).
Proof. intros (H1 & H2 & H3). repeat split; assumption. Qed.

(** On a hit the call returns the cached reference and changes nothing. *)
Lemma filtered_df_hit (d : DataFrame) (s : Session) :
  session_ok d s -> cache_hit s = true ->
  exists r,
    filtered_df s = (Ok r, s) /\
    nth_error (heap s) r = Some (view_of d (species_value s) (mass_value s)).
Proof.
  intros (Hd & Hs & Hc) Hh. unfold cache_hit in Hh. unfold cache_coherent in Hc.
  unfold filtered_df, reactive_calc.
  destruct (calc_cache s) as [[k v]|]; [|discriminate].
  rewrite Hh. destruct Hc as (r & -> & Hr). exists r. split; [reflexivity|].
  apply filter_state_eqb_eq in Hh. subst k. exact Hr.
Qed.

(** On a miss the body runs once: two tables are allocated, the counter
    goes up by one and the cache is filled for the current filter state. *)
Lemma filtered_df_miss (d : DataFrame) (s : Session) :
  session_ok d s -> cache_hit s = false ->
  exists mid,
    filtered_df s =
    (Ok (S (length (heap s))),
     mkSession (heap s ++ [mid; view_of d (species_value s) (mass_value s)])
               (species_value s) (mass_value s)
               (Some ((species_value s, mass_value s), Ok (S (length (heap s)))))
               (S (exec_count s))).
Proof.
  intros (Hd & Hs & Hc) Hh.
  destruct (filtered_df_body_run d s Hd Hs) as (mid & Hrun).
  exists mid. unfold cache_hit in Hh. unfold filtered_df, reactive_calc.
  rewrite Hrun. cbn [with_heap heap species_value mass_value exec_count].
  destruct (calc_cache s) as [[k v]|]; [rewrite Hh|]; reflexivity.
Qed.

Lemma nth_error_second {A : Type} (l : list A) (a b : A) :
  nth_error (l ++ [a; b]) (S (length l)) = Some b.
Proof.
  rewrite nth_error_app2 by lia.
  replace (S (length l) - length l) with 1 by lia. reflexivity.
Qed.

(** What a call of [filtered_df()] does in a session the program can be
    in. *)
Lemma filtered_df_run (d : DataFrame) (s : Session) :
  session_ok d s ->
  exists s',
    reads_view s (view_of d (species_value s) (mass_value s)) s' /\
    session_ok d s' /\
    species_value s' = species_value s /\
    mass_value s' = mass_value s /\
    cache_hit s' = true /\
    exec_count s' = (if cache_hit s then exec_count s else S (exec_count s)) /\
    exists ext, heap s' = heap s ++ ext.
Proof.
  intros Hok. destruct (cache_hit s) eqn:Hh.
  - destruct (filtered_df_hit d s Hok Hh) as (r & Hrun & Hr).
    exists s. repeat split; try assumption; try apply Hok.
    + exists r. now split.
    + exists []. now rewrite app_nil_r.
  - destruct (filtered_df_miss d s Hok Hh) as (mid & Hrun).
    destruct Hok as (Hd & Hs & Hc).
    eexists. split; [|split; [|split; [|split; [|split; [|split]]]]].
    + eexists. split; [exact Hrun|]. cbn [heap]. apply nth_error_second.
    + repeat split; cbn [heap]; [now apply nth_error_app_keep | assumption |].
      unfold cache_coherent. cbn [calc_cache heap fst snd].
      eexists. split; [reflexivity | apply nth_error_second].
    + reflexivity.
    + reflexivity.
    + unfold cache_hit. cbn [calc_cache species_value mass_value].
      now apply filter_state_eqb_eq.
    + reflexivity.
    + cbn [heap]. eexists. reflexivity.
Qed.

Lemma view_of_rows_In (d : DataFrame) (sel : list string) (m : Z) (r : Row) :
  In r (rows (view_of d sel m)) <-> In r (rows d) /\ satisfies d sel m r.
Proof.
  unfold view_of. cbn [rows]. rewrite filter_In. now rewrite keep_satisfies.
Qed.

Lemma filter_all {A : Type} (f : A -> bool) (l : list A) :
  (forall a, In a l -> f a = true) -> filter f l = l.
Proof.
  induction l as [|a l IH]; intros H; simpl; [reflexivity|].
  rewrite (H a (or_introl eq_refl)). f_equal. apply IH.
  intros b Hb. apply H. now right.
Qed.

Lemma filter_none {A : Type} (f : A -> bool) (l : list A) :
  (forall a, In a l -> f a = false) -> filter f l = [].
Proof.
  induction l as [|a l IH]; intros H; simpl; [reflexivity|].
  rewrite (H a (or_introl eq_refl)). apply IH.
  intros b Hb. apply H. now right.
Qed.

Lemma filter_length_lt {A : Type} (f : A -> bool) (l : list A) (a : A) :
  In a l -> f a = false -> length (filter f l) < length l.
Proof.
  induction l as [|b l IH]; intros Hin Hf; [destruct Hin|].
  pose proof (filter_length_le f (fun _ => true) l (fun _ _ _ => eq_refl)) as Hle.
  rewrite (filter_all (fun _ => true) l) in Hle by reflexivity.
  simpl. destruct Hin as [->|Hin].
  - rewrite Hf. lia.
  - specialize (IH Hin Hf). destruct (f b); simpl; lia.
Qed.

(** ** The filter *)

(** C1: for every filter state, the table that [filtered_df] returns holds
    exactly the rows of the base table whose species is among the selected
    ones and whose body mass is strictly below the bound: each of its rows
    is such a base row, each such base row is in it, and they come in the
    order and number they have in the base table. *)
Theorem filtered_df_sound_complete (d : DataFrame) (s : Session) :
  session_ok d s ->
  exists v s',
    reads_view s v s' /\
    (forall r, In r (rows v) <->
               In r (rows d) /\ satisfies d (species_value s) (mass_value s) r) /\
    rows v = filter (keep d (species_value s) (mass_value s)) (rows d).
Proof.
  intros Hok. destruct (filtered_df_run d s Hok) as (s' & Hread & _).
  exists (view_of d (species_value s) (mass_value s)), s'.
  split; [exact Hread|]. split; [|reflexivity].
  intros r. apply view_of_rows_In.
Qed.

Lemma filtered_df_sound_complete_witness :
  session_ok sample_df adelie_session /\
  exists v s',
    reads_view adelie_session v s' /\
    (forall r, In r (rows v) <->
               In r (rows sample_df) /\
               satisfies sample_df (species_value adelie_session)
                         (mass_value adelie_session) r) /\
    rows v = filter (keep sample_df (species_value adelie_session)
                          (mass_value adelie_session)) (rows sample_df).
Proof.
  assert (Hok : session_ok sample_df adelie_session)
    by (repeat split; reflexivity).
  split; [exact Hok|].
  exact (filtered_df_sound_complete sample_df adelie_session Hok).
Defined.

Lemma satisfies_mass_mono (d : DataFrame) (sel : list string) (m m' : Z) (r : Row) :
  (m' <= m)%Z -> satisfies d sel m' r -> satisfies d sel m r.
Proof.
  intros Hle (sp & q & Hs & Hin & Hm & Hlt). exists sp, q.
  repeat split; try assumption.
  apply Qlt_le_trans with (inject_Z m'); [assumption|].
  now rewrite <- Zle_Qle.
Qed.

Lemma satisfies_species_mono (d : DataFrame) (sel sel' : list string) (m : Z) (r : Row) :
  incl sel' sel -> satisfies d sel' m r -> satisfies d sel m r.
Proof.
  intros Hincl (sp & q & Hs & Hin & Hm & Hlt). exists sp, q.
  repeat split; try assumption. now apply Hincl.
Qed.

Lemma view_of_shape_mono (d : DataFrame) (sel sel' : list string) (m m' : Z) :
  incl sel' sel -> (m' <= m)%Z ->
  shape0 (view_of d sel' m') <= shape0 (view_of d sel m).
Proof.
  intros Hs Hm. unfold shape0, view_of. cbn [rows].
  apply filter_length_le. intros r _ Hk.
  apply keep_satisfies. apply keep_satisfies in Hk.
  apply satisfies_species_mono with sel'; [assumption|].
  now apply satisfies_mass_mono with m'.
Qed.

(** C3: the number of rows of the derived view is monotone in the filter
    state: after a read, lowering the bound with the species unchanged, or
    removing a species with the bound unchanged, gives a view with at most
    as many rows. *)
Theorem row_count_monotone (d : DataFrame) (s : Session) (m' : Z) (sp : string) :
  session_ok d s ->
  (m' <= mass_value s)%Z ->
  exists v s1,
    reads_view s v s1 /\
    (exists v' s2,
        reads_view (set_mass m' s1) v' s2 /\ shape0 v' <= shape0 v) /\
    (exists v' s2,
        reads_view (set_species (remove string_dec sp (species_value s)) s1) v' s2 /\
        shape0 v' <= shape0 v).
Proof.
  intros Hok Hle.
  destruct (filtered_df_run d s Hok) as (s1 & Hread & Hok1 & Hsp & Hm & _).
  exists (view_of d (species_value s) (mass_value s)), s1.
  split; [exact Hread|]. split.
  - destruct (filtered_df_run d _ (session_ok_set_mass d s1 m' Hok1))
      as (s2 & Hread2 & _).
    cbn [set_mass species_value mass_value] in Hread2. rewrite Hsp in Hread2.
    eexists. exists s2. split; [exact Hread2|].
    apply view_of_shape_mono; [apply incl_refl | assumption].
  - destruct (filtered_df_run d _
                (session_ok_set_species d s1
                   (remove string_dec sp (species_value s)) Hok1))
      as (s2 & Hread2 & _).
    cbn [set_species species_value mass_value] in Hread2. rewrite Hm in Hread2.
    eexists. exists s2. split; [exact Hread2|].
    apply view_of_shape_mono; [|lia].
    intros x Hx. now apply in_remove in Hx.
Qed.

Lemma row_count_monotone_witness :
  session_ok sample_df (start sample_df) /\
  (3000 <= mass_value (start sample_df))%Z /\
  exists v s1,
    reads_view (start sample_df) v s1 /\
    (exists v' s2,
        reads_view (set_mass 3000 s1) v' s2 /\ shape0 v' <= shape0 v) /\
    (exists v' s2,
        reads_view
          (set_species
             (remove string_dec "Adelie"%string
                     (species_value (start sample_df))) s1) v' s2 /\
        shape0 v' <= shape0 v).
Proof.
  assert (Hok : session_ok sample_df (start sample_df))
    by (repeat split; reflexivity).
  assert (Hle : (3000 <= mass_value (start sample_df))%Z)
    by (vm_compute; discriminate).
  split; [exact Hok|]. split; [exact Hle|].
  exact (row_count_monotone sample_df (start sample_df) 3000 "Adelie" Hok Hle).
Defined.

Lemma schema_species (d : DataFrame) (r : Row) :
  penguins_schema d = true -> In r (rows d) ->
  exists sp, field "species" d r = Some (Str sp).
Proof.
  intros Hs Hr.
  destruct (penguins_schema_spec d Hs) as (_ & Hsp & _).
  destruct (column_all_spec _ _ _ Hsp) as (i & Li & Pi).
  unfold field. rewrite Li. cbn [option_map].
  specialize (Pi r Hr). destruct (cell_at i r) as [sp| |]; try discriminate.
  now exists sp.
Qed.

(** C4, amended: when the bound is strictly above every body mass of the
    base table, no body mass is missing and the species of every row is
    selected, the derived view is the whole base table. *)
Theorem full_range_view_is_base (d : DataFrame) (s : Session) :
  session_ok d s ->
  (forall r sp, In r (rows d) -> field "species" d r = Some (Str sp) ->
                In sp (species_value s)) ->
  (forall r, In r (rows d) ->
             exists q, field "body_mass_g" d r = Some (Num q) /\
                       (q < inject_Z (mass_value s))%Q) ->
  exists s', reads_view s d s'.
Proof.
  intros Hok Hall Hmass.
  destruct (filtered_df_run d s Hok) as (s' & Hread & _).
  exists s'.
  assert (E : view_of d (species_value s) (mass_value s) = d);
    [|now rewrite E in Hread].
  unfold view_of. rewrite filter_all; [now destruct d|].
  intros r Hr. apply keep_satisfies.
  destruct Hok as (_ & Hs & _).
  destruct (schema_species d r Hs Hr) as (sp & Hsp).
  destruct (Hmass r Hr) as (q & Hq & Hlt).
  exists sp, q. repeat split; try assumption. now apply (Hall r).
Qed.

Lemma full_range_view_is_base_witness :
  session_ok light_df (start light_df) /\
  (forall r sp, In r (rows light_df) ->
                field "species" light_df r = Some (Str sp) ->
                In sp (species_value (start light_df))) /\
  (forall r, In r (rows light_df) ->
             exists q, field "body_mass_g" light_df r = Some (Num q) /\
                       (q < inject_Z (mass_value (start light_df)))%Q) /\
  exists s', reads_view (start light_df) light_df s'.
Proof.
  assert (Hok : session_ok light_df (start light_df))
    by (repeat split; reflexivity).
  assert (Hall : forall r sp, In r (rows light_df) ->
                   field "species" light_df r = Some (Str sp) ->
                   In sp (species_value (start light_df))).
  { intros r sp Hr Hf. each_row Hr; vm_compute in Hf; injection Hf as <-;
      vm_compute; auto. }
  assert (Hmass : forall r, In r (rows light_df) ->
                    exists q, field "body_mass_g" light_df r = Some (Num q) /\
                              (q < inject_Z (mass_value (start light_df)))%Q).
  { intros r Hr. each_row Hr; eexists; (split; [reflexivity|]);
      apply Qltb_lt; reflexivity. }
  split; [exact Hok|]. split; [exact Hall|]. split; [exact Hmass|].
  exact (full_range_view_is_base light_df (start light_df) Hok Hall Hmass).
Defined.

(** C4 as written fails: with the bound equal to the largest body mass
    (6000, the default of the slider) and all species selected, the bird of
    6000 g is not in the derived view. *)
Lemma full_range_drops_heaviest :
  session_ok heavy_df (start heavy_df) /\
  (forall r sp, In r (rows heavy_df) ->
                field "species" heavy_df r = Some (Str sp) ->
                In sp (species_value (start heavy_df))) /\
  (forall r, In r (rows heavy_df) ->
             exists q, field "body_mass_g" heavy_df r = Some (Num q) /\
                       (q <= inject_Z (mass_value (start heavy_df)))%Q) /\
  exists v s', reads_view (start heavy_df) v s' /\
               v <> heavy_df /\ ~ In gentoo_row (rows v).
Proof.
  split; [repeat split; reflexivity|]. split; [|split].
  - intros r sp Hr Hf. each_row Hr; vm_compute in Hf; injection Hf as <-;
      vm_compute; auto.
  - intros r Hr. each_row Hr; eexists; (split; [reflexivity|]);
      vm_compute; discriminate.
  - eexists. eexists. split; [eexists; split; vm_compute; reflexivity|].
    split; [discriminate|].
    intros [H|[H|[]]]; discriminate H.
Qed.

(** C5: when the bound is at or below every body mass of the base table,
    the derived view has no row, whatever species are selected. *)
Theorem low_bound_view_is_empty (d : DataFrame) (s : Session) :
  session_ok d s ->
  (forall r q, In r (rows d) -> field "body_mass_g" d r = Some (Num q) ->
               (inject_Z (mass_value s) <= q)%Q) ->
  exists v s', reads_view s v s' /\ rows v = [] /\ shape0 v = 0.
Proof.
  intros Hok Hmin. destruct (filtered_df_run d s Hok) as (s' & Hread & _).
  exists (view_of d (species_value s) (mass_value s)), s'.
  split; [exact Hread|].
  assert (E : rows (view_of d (species_value s) (mass_value s)) = []).
  { unfold view_of. cbn [rows]. apply filter_none. intros r Hr.
    destruct (keep d (species_value s) (mass_value s) r) eqn:Hk; [|reflexivity].
    apply keep_satisfies in Hk. destruct Hk as (sp & q & _ & _ & Hq & Hlt).
    exfalso. apply (Qlt_not_le _ _ Hlt). now apply (Hmin r). }
  split; [exact E|]. unfold shape0. now rewrite E.
Qed.

Lemma low_bound_view_is_empty_witness :
  session_ok sample_df (set_mass 2700 (start sample_df)) /\
  (forall r q, In r (rows sample_df) ->
               field "body_mass_g" sample_df r = Some (Num q) ->
               (inject_Z (mass_value (set_mass 2700 (start sample_df))) <= q)%Q) /\
  exists v s', reads_view (set_mass 2700 (start sample_df)) v s' /\
               rows v = [] /\ shape0 v = 0.
Proof.
  assert (Hok : session_ok sample_df (set_mass 2700 (start sample_df)))
    by (repeat split; reflexivity).
  assert (Hmin : forall r q, In r (rows sample_df) ->
                   field "body_mass_g" sample_df r = Some (Num q) ->
                   (inject_Z (mass_value (set_mass 2700 (start sample_df))) <= q)%Q).
  { intros r q Hr Hf. each_row Hr; vm_compute in Hf;
      try discriminate Hf; injection Hf as <-; vm_compute; discriminate. }
  split; [exact Hok|]. split; [exact Hmin|].
  exact (low_bound_view_is_empty sample_df _ Hok Hmin).
Defined.

(** C6: for every filter state the derived view has the columns of the
    base table, in the same order, and each of its rows is a row of the
    base table with all its cells: filtering removes rows only. *)
Theorem filtered_df_keeps_columns (d : DataFrame) (s : Session) :
  session_ok d s ->
  exists v s',
    reads_view s v s' /\
    columns v = columns d /\
    incl (rows v) (rows d) /\
    (forall r name, In r (rows v) -> field name v r = field name d r) /\
    well_formed v = true.
Proof.
  intros Hok. destruct (filtered_df_run d s Hok) as (s' & Hread & _).
  exists (view_of d (species_value s) (mass_value s)), s'.
  split; [exact Hread|]. split; [reflexivity|]. split; [|split].
  - intros r Hr. apply view_of_rows_In in Hr. apply Hr.
  - reflexivity.
  - destruct Hok as (_ & Hs & _).
    destruct (penguins_schema_spec d Hs) as (Hwf & _).
    unfold well_formed in *. rewrite forallb_forall in *.
    intros r Hr. apply Hwf. apply view_of_rows_In in Hr. apply Hr.
Qed.

Lemma filtered_df_keeps_columns_witness :
  session_ok sample_df adelie_session /\
  exists v s',
    reads_view adelie_session v s' /\
    columns v = columns sample_df /\
    incl (rows v) (rows sample_df) /\
    (forall r name, In r (rows v) -> field name v r = field name sample_df r) /\
    well_formed v = true.
Proof.
  assert (Hok : session_ok sample_df adelie_session)
    by (repeat split; reflexivity).
  split; [exact Hok|].
  exact (filtered_df_keeps_columns sample_df adelie_session Hok).
Defined.

(** C10: a base row whose body mass is missing is in no derived view,
    whatever the bound and the selected species; so when the base table
    has such a row, every derived view is a strict part of the base
    table. *)
Theorem missing_mass_is_excluded (d : DataFrame) (s : Session) (r0 : Row) :
  session_ok d s ->
  In r0 (rows d) ->
  field "body_mass_g" d r0 = Some NaN ->
  exists v s',
    reads_view s v s' /\
    ~ In r0 (rows v) /\
    incl (rows v) (rows d) /\ shape0 v < shape0 d /\ v <> d.
Proof.
  intros Hok Hr Hnan. destruct (filtered_df_run d s Hok) as (s' & Hread & _).
  exists (view_of d (species_value s) (mass_value s)), s'.
  split; [exact Hread|].
  assert (Hex : ~ In r0 (rows (view_of d (species_value s) (mass_value s)))).
  { intros Hin. apply view_of_rows_In in Hin.
    destruct Hin as (_ & sp & q & _ & _ & Hq & _). congruence. }
  split; [exact Hex|]. split; [|split].
  - intros x Hx. apply view_of_rows_In in Hx. apply Hx.
  - unfold shape0, view_of. cbn [rows].
    apply filter_length_lt with r0; [assumption|].
    destruct (keep d (species_value s) (mass_value s) r0) eqn:Hk; [|reflexivity].
    exfalso. apply Hex. unfold view_of. cbn [rows].
    apply filter_In. now split.
  - intros E. apply Hex. now rewrite E.
Qed.

Lemma missing_mass_is_excluded_witness :
  session_ok sample_df (start sample_df) /\
  In missing_row (rows sample_df) /\
  field "body_mass_g" sample_df missing_row = Some NaN /\
  exists v s',
    reads_view (start sample_df) v s' /\
    ~ In missing_row (rows v) /\
    incl (rows v) (rows sample_df) /\ shape0 v < shape0 sample_df /\
    v <> sample_df.
Proof.
  assert (Hok : session_ok sample_df (start sample_df))
    by (repeat split; reflexivity).
  assert (Hin : In missing_row (rows sample_df))
    by (right; left; reflexivity).
  assert (Hnan : field "body_mass_g" sample_df missing_row = Some NaN)
    by reflexivity.
  split; [exact Hok|]. split; [exact Hin|]. split; [exact Hnan|].
  exact (missing_mass_is_excluded sample_df (start sample_df) missing_row
           Hok Hin Hnan).
Defined.

(** ** The outputs *)

Lemma count_run (d : DataFrame) (s : Session) :
  session_ok d s ->
  exists s',
    count s = (Ok (shape0 (view_of d (species_value s) (mass_value s))), s').
Proof.
  intros Hok. destruct (filtered_df_run d s Hok) as (s' & (r & Hrun & Hr) & _).
  exists s'. unfold count.
  rewrite (bind_run _ _ _ _ _ Hrun).
  now rewrite (bind_run _ _ _ _ _ (deref_run r _ s' Hr)).
Qed.

Lemma present_floats (i : nat) (rs : list Row) :
  (forall r, In r rs -> is_float (cell_at i r) = true) ->
  present (map (cell_at i) rs) =
  Ok (flat_map (fun r => match cell_at i r with Num q => [q] | _ => [] end) rs).
Proof.
  induction rs as [|r rs IH]; intros H; [reflexivity|].
  assert (IH' := IH (fun x Hx => H x (or_intror Hx))).
  specialize (H r (or_introl eq_refl)).
  cbn [map present flat_map]. destruct (cell_at i r); cbn [is_float] in H.
  - discriminate.
  - rewrite IH'. reflexivity.
  - rewrite IH'. reflexivity.
Qed.

Lemma mean_floats (name : string) (d : DataFrame) (i : nat) (rs : list Row) :
  get_loc name (columns d) = Some i ->
  (forall r, In r rs -> is_float (cell_at i r) = true) ->
  result_bind (mean (map (cell_at i) rs))
              (fun m => result_bind (format_1f m)
                                    (fun txt => Ok (txt ++ " mm")%string)) =
  Ok (mean_text name d rs).
Proof.
  intros Li Hf. unfold mean. rewrite (present_floats i rs Hf).
  assert (Hfill : map fill0 (map (cell_at i) rs) = filled name d rs).
  { unfold filled, field. rewrite Li, map_map. cbn [option_map].
    apply map_ext. intros r. unfold fill0.
    destruct (cell_at i r); reflexivity. }
  rewrite Hfill. unfold mean_text, float_mean, numbers, field.
  rewrite Li. cbn [option_map result_bind].
  destruct (flat_map _ rs); reflexivity.
Qed.

(** A text output that takes the mean of the float column [name]. *)
Lemma mean_output_run (name : string) (d : DataFrame) (s : Session) :
  session_ok d s ->
  column_all is_float name d = true ->
  exists s',
    (v <- filtered_df ;;
     col <- getitem v name ;;
     m <- lift (mean col) ;;
     txt <- lift (format_1f m) ;;
     ret (txt ++ " mm")%string) s =
    (Ok (mean_text name d
                    (rows (view_of d (species_value s) (mass_value s)))), s').
Proof.
  intros Hok Hcol.
  destruct (column_all_spec _ _ _ Hcol) as (i & Li & Pi).
  destruct (filtered_df_run d s Hok) as (s' & (r & Hrun & Hr) & _).
  exists s'. rewrite (bind_run _ _ _ _ _ Hrun).
  rewrite (bind_run _ _ _ _ _ (getitem_run r name _ i s' Hr Li)).
  assert (Hf : forall x, In x (rows (view_of d (species_value s) (mass_value s))) ->
                 is_float (cell_at i x) = true).
  { intros x Hx. apply Pi. apply view_of_rows_In in Hx. apply Hx. }
  pose proof (mean_floats name d i _ Li Hf) as Hm.
  unfold bind, lift, ret.
  destruct (mean (map (cell_at i) (rows (view_of d (species_value s) (mass_value s)))))
    as [m|e]; cbn [result_bind] in Hm; [|discriminate].
  destruct (format_1f m) as [txt|e]; cbn [result_bind] in Hm; [|discriminate].
  now injection Hm as ->.
Qed.

(** [round_half_even] picks an integer at distance at most one half. *)
Lemma round_half_even_nearest (q : Q) :
  (inject_Z (round_half_even q) - (1 # 2) <= q)%Q /\
  (q <= inject_Z (round_half_even q) + (1 # 2))%Q.
Proof.
  destruct q as [n d]. unfold round_half_even. cbn [Qnum Qden].
  pose proof (Z.div_mod n (Z.pos d) ltac:(lia)) as Hdiv.
  pose proof (Z.mod_pos_bound n (Z.pos d) ltac:(lia)) as Hmod.
  set (f := (n / Z.pos d)%Z) in *. set (r := (n mod Z.pos d)%Z) in *.
  assert (Hcases :
    forall t, (2 * Z.pos d * t - Z.pos d <= 2 * n <= 2 * Z.pos d * t + Z.pos d)%Z ->
    (inject_Z t - (1 # 2) <= n # d)%Q /\ (n # d <= inject_Z t + (1 # 2))%Q).
  { intros t Ht. unfold Qle, Qminus, Qplus, Qopp, inject_Z. cbn [Qnum Qden].
    split; nia. }
  apply Hcases.
  destruct (Z.compare_spec (2 * r) (Z.pos d)) as [E|L|G].
  - destruct (Z.even f); nia.
  - nia.
  - nia.
Qed.

(** The text that [one_decimal] produces never starts like "nan". *)
Lemma string_of_nat_head (n : nat) :
  exists c rest, string_of_nat n = String c rest /\ c <> "n"%char.
Proof.
  unfold string_of_nat, NilZero.string_of_uint.
  destruct (Nat.to_uint n); cbn [NilEmpty.string_of_uint];
    eexists; eexists; (split; [reflexivity | discriminate]).
Qed.

Lemma one_decimal_not_nan (q : Q) :
  (one_decimal q ++ " mm")%string <> "nan mm"%string.
Proof.
  unfold one_decimal, show_tenths.
  set (t := Z.to_nat _).
  destruct (string_of_nat_head (t / 10)) as (c & rest & E & Hc).
  rewrite E. destruct (Qnum q <? 0)%Z; cbn [String.append].
  - discriminate.
  - intros H. injection H as H _. contradiction.
Qed.

(** C8, amended: the count metric is the number of rows of the derived
    view; each mean metric reads nan when its column has no value in the
    rows of the derived view, and otherwise shows, to one decimal place as
    the format [.1f] gives it, the float64 mean of the column over those
    rows: the float64 sum of the values present divided by their number. *)
Theorem metrics_of_view (d : DataFrame) (s : Session) :
  session_ok d s ->
  exists v s0,
    reads_view s v s0 /\
    (exists s1, count s = (Ok (length (rows v)), s1)) /\
    (exists s2, bill_length s =
                (Ok (mean_text "bill_length_mm" d (rows v)), s2)) /\
    (exists s3, bill_depth s =
                (Ok (mean_text "bill_depth_mm" d (rows v)), s3)).
Proof.
  intros Hok. destruct (filtered_df_run d s Hok) as (s0 & Hread & _).
  exists (view_of d (species_value s) (mass_value s)), s0.
  split; [exact Hread|].
  destruct Hok as (Hd & Hs & Hc).
  destruct (penguins_schema_spec d Hs) as (_ & _ & _ & Hbl & Hbd & _).
  split; [|split].
  - apply (count_run d s). repeat split; assumption.
  - apply (mean_output_run "bill_length_mm" d s); [repeat split|]; assumption.
  - apply (mean_output_run "bill_depth_mm" d s); [repeat split|]; assumption.
Qed.

Lemma schema_grid_locs (d : DataFrame) :
  penguins_schema d = true ->
  exists locs,
    get_locs grid_cols d = Ok locs /\
    Forall2 (fun name i => get_loc name (columns d) = Some i) grid_cols locs.
Proof.
  intros Hs.
  destruct (penguins_schema_spec d Hs) as (_ & H1 & H2 & H3 & H4 & H5).
  destruct (column_all_spec _ _ _ H1) as (i1 & L1 & _).
  destruct (column_all_spec _ _ _ H2) as (i2 & L2 & _).
  destruct (column_all_spec _ _ _ H3) as (i3 & L3 & _).
  destruct (column_all_spec _ _ _ H4) as (i4 & L4 & _).
  destruct (column_all_spec _ _ _ H5) as (i5 & L5 & _).
  exists [i1; i2; i3; i4; i5]. split.
  - unfold get_locs, grid_cols. cbn [result_map].
    rewrite L1, L2, L3, L4, L5. reflexivity.
  - unfold grid_cols. repeat constructor; assumption.
Qed.

Lemma project_cells (d : DataFrame) (names : list string) (locs : list nat) (r : Row) :
  Forall2 (fun name i => get_loc name (columns d) = Some i) names locs ->
  Forall2 (fun name c => field name d r = Some c) names (cells (project locs r)).
Proof.
  unfold project. cbn [cells].
  induction 1 as [|name i names locs Hi _ IH]; cbn [map]; constructor.
  - unfold field. now rewrite Hi.
  - exact IH.
Qed.

(** C9: for every filter state the data grid shows a table with the five
    columns species, island, bill_length_mm, bill_depth_mm and body_mass_g,
    in that order, with one row per row of the derived view, each holding
    the cells of that row in those columns; column filters are on. *)
Theorem summary_statistics_projection (d : DataFrame) (s : Session) :
  session_ok d s ->
  exists v s0 g grid s',
    reads_view s v s0 /\
    summary_statistics s = (Ok (mkDataGrid g true), s') /\
    nth_error (heap s') g = Some grid /\
    columns grid =
      ["species"; "island"; "bill_length_mm"; "bill_depth_mm";
       "body_mass_g"]%string /\
    Forall2 (fun gr r =>
               label gr = label r /\
               Forall2 (fun name c => field name d r = Some c)
                       (columns grid) (cells gr))
            (rows grid) (rows v).
Proof.
  intros Hok.
  destruct (filtered_df_run d s Hok) as (s0 & Hread & _).
  pose proof Hread as (r & Hrun & Hr).
  destruct Hok as (_ & Hs & _).
  destruct (schema_grid_locs d Hs) as (locs & Hlocs & Hall).
  set (v := view_of d (species_value s) (mass_value s)) in *.
  set (grid := mkDataFrame grid_cols (map (project locs) (rows v))).
  exists v, s0, (length (heap s0)), grid, (with_heap s0 (heap s0 ++ [grid])).
  split; [exact Hread|]. split; [|split; [|split]].
  - unfold summary_statistics. rewrite (bind_run _ _ _ _ _ Hrun).
    unfold getitem_list.
    assert (Hg : (d0 <- deref r ;; d' <- lift (getitem_cols d0 grid_cols) ;; alloc d') s0
                 = (Ok (length (heap s0)), with_heap s0 (heap s0 ++ [grid]))).
    { rewrite (bind_run _ _ _ _ _ (deref_run r v s0 Hr)).
      unfold bind, lift, getitem_cols.
      change (get_locs grid_cols v) with (get_locs grid_cols d).
      rewrite Hlocs. reflexivity. }
    now rewrite (bind_run _ _ _ _ _ Hg).
  - cbn [with_heap heap]. apply nth_error_snoc.
  - reflexivity.
  - cbn [grid rows columns]. induction (rows v) as [|x xs IH]; cbn [map].
    + constructor.
    + constructor; [|exact IH]. split; [reflexivity|].
      now apply project_cells.
Qed.

Lemma summary_statistics_projection_witness :
  session_ok sample_df adelie_session /\
  exists v s0 g grid s',
    reads_view adelie_session v s0 /\
    summary_statistics adelie_session = (Ok (mkDataGrid g true), s') /\
    nth_error (heap s') g = Some grid /\
    columns grid =
      ["species"; "island"; "bill_length_mm"; "bill_depth_mm";
       "body_mass_g"]%string /\
    Forall2 (fun gr r =>
               label gr = label r /\
               Forall2 (fun name c => field name sample_df r = Some c)
                       (columns grid) (cells gr))
            (rows grid) (rows v).
Proof.
  assert (Hok : session_ok sample_df adelie_session)
    by (repeat split; reflexivity).
  split; [exact Hok|].
  exact (summary_statistics_projection sample_df adelie_session Hok).
Defined.

(** The grid of the sample session: the one Adelie below 4000 g, without
    its flipper length, sex and year. *)
Example grid_of_sample :
  let '(g, s') := summary_statistics adelie_session in
  g = Ok (mkDataGrid 3 true) /\
  nth_error (heap s') 3 =
  Some (mkDataFrame grid_cols
          [mkRow 0 [Str "Adelie"; Str "Torgersen"; Num (391 # 10);
                    Num (187 # 10); Num (3750 # 1)]]).
Proof. vm_compute. split; reflexivity. Qed.

(** ** The cache of the reactive calculation *)

Lemma reads_hit (r : ref) (s : Session) (n : nat) :
  filtered_df s = (Ok r, s) -> reads n s = (Ok (repeat r n), s).
Proof.
  intros Hrun. induction n as [|n IH]; [reflexivity|].
  cbn [reads repeat]. rewrite (bind_run _ _ _ _ _ Hrun).
  now rewrite (bind_run _ _ _ _ _ IH).
Qed.

(** C2: with the filter state unchanged, any number of reads of
    [filtered_df] return one and the same table, and the body runs once
    for them if the filter state differs from the one of the previous
    computation and not at all otherwise; reads after that never run it
    again.  Running the body itself twice gives two equal tables. *)
Theorem filtered_df_cached (d : DataFrame) (s : Session) (n : nat) :
  session_ok d s ->
  (exists r s',
      reads (S n) s = (Ok (repeat r (S n)), s') /\
      nth_error (heap s') r = Some (view_of d (species_value s) (mass_value s)) /\
      exec_count s' = (if cache_hit s then exec_count s else S (exec_count s)) /\
      forall k, reads k s' = (Ok (repeat r k), s')) /\
  (exists r1 s1 r2 s2 v,
      filtered_df_body s = (Ok r1, s1) /\
      filtered_df_body s1 = (Ok r2, s2) /\
      nth_error (heap s2) r1 = Some v /\ nth_error (heap s2) r2 = Some v).
Proof.
  intros Hok. split.
  - destruct (filtered_df_run d s Hok)
      as (s' & (r & Hrun & Hr) & Hok' & Hsp & Hm & Hhit & Hcnt & _).
    destruct (filtered_df_hit d s' Hok' Hhit) as (r' & Hrun' & Hr').
    assert (r' = r) as ->.
    { destruct (cache_hit s) eqn:Hh.
      - destruct (filtered_df_hit d s Hok Hh) as (r0 & Hrun0 & _).
        rewrite Hrun0 in Hrun. injection Hrun as -> <-.
        rewrite Hrun0 in Hrun'. now injection Hrun'.
      - destruct (filtered_df_miss d s Hok Hh) as (mid & Hrun0).
        rewrite Hrun0 in Hrun. injection Hrun as <- <-.
        unfold filtered_df, reactive_calc in Hrun'.
        cbn [calc_cache species_value mass_value] in Hrun'.
        assert (E : filter_state_eqb (species_value s, mass_value s)
                                     (species_value s, mass_value s) = true)
          by now apply filter_state_eqb_eq.
        rewrite E in Hrun'. now injection Hrun'. }
    exists r, s'. split; [|split; [|split]].
    + cbn [reads repeat]. rewrite (bind_run _ _ _ _ _ Hrun).
      now rewrite (bind_run _ _ _ _ _ (reads_hit r s' n Hrun')).
    + exact Hr.
    + exact Hcnt.
    + intros k. now apply reads_hit.
  - destruct Hok as (Hd & Hs & _).
    destruct (filtered_df_body_run d s Hd Hs) as (mid & Hrun).
    set (v := view_of d (species_value s) (mass_value s)) in *.
    set (s1 := with_heap s (heap s ++ [mid; v])) in *.
    assert (Hd1 : nth_error (heap s1) df = Some d)
      by (cbn [s1 with_heap heap]; now apply nth_error_app_keep).
    destruct (filtered_df_body_run d s1 Hd1 Hs) as (mid' & Hrun').
    cbn [s1 with_heap species_value mass_value] in Hrun'. fold v in Hrun'. fold s1 in Hrun'.
    eexists. exists s1. eexists. eexists. exists v.
    split; [exact Hrun|]. split; [exact Hrun'|].
    cbn [with_heap heap]. split.
    + apply nth_error_app_keep. cbn [s1 with_heap heap]. apply nth_error_second.
    + apply nth_error_second.
Qed.

Lemma filtered_df_cached_witness :
  session_ok sample_df adelie_session /\
  (exists r s',
      reads 3 adelie_session = (Ok (repeat r 3), s') /\
      nth_error (heap s') r =
        Some (view_of sample_df (species_value adelie_session)
                      (mass_value adelie_session)) /\
      exec_count s' = (if cache_hit adelie_session
                       then exec_count adelie_session
                       else S (exec_count adelie_session)) /\
      forall k, reads k s' = (Ok (repeat r k), s')) /\
  (exists r1 s1 r2 s2 v,
      filtered_df_body adelie_session = (Ok r1, s1) /\
      filtered_df_body s1 = (Ok r2, s2) /\
      nth_error (heap s2) r1 = Some v /\ nth_error (heap s2) r2 = Some v).
Proof.
  assert (Hok : session_ok sample_df adelie_session)
    by (repeat split; reflexivity).
  split; [exact Hok|].
  exact (filtered_df_cached sample_df adelie_session 2 Hok).
Defined.

(** Three reads, a move of the slider, two reads, the slider back: the
    body has run twice after the five reads and runs a third time on the
    next read. *)
Example recomputations_of_sample :
  let s1 := snd (reads 3 (start sample_df)) in
  let s2 := snd (reads 2 (set_mass 4000 s1)) in
  let s3 := snd (reads 1 (set_mass 6000 s2)) in
  exec_count s1 = 1 /\ exec_count s2 = 2 /\ exec_count s3 = 3.
Proof. vm_compute. repeat split. Qed.

(** ** The object store *)

Lemma grows_ret {A : Type} (a : A) : grows (ret a).
Proof. intros s. exists []. cbn. now rewrite app_nil_r. Qed.

Lemma grows_lift {A : Type} (r : result A) : grows (lift r).
Proof. intros s. exists []. cbn. now rewrite app_nil_r. Qed.

Lemma grows_bind {A B : Type} (m : M A) (k : A -> M B) :
  grows m -> (forall a, grows (k a)) -> grows (bind m k).
Proof.
  intros Hm Hk s. unfold bind. destruct (Hm s) as (e1 & E1).
  destruct (m s) as [[a|e] s1]; cbn [snd] in *.
  - destruct (Hk a s1) as (e2 & E2). exists (e1 ++ e2).
    now rewrite E2, E1, app_assoc.
  - now exists e1.
Qed.

Lemma grows_deref (r : ref) : grows (deref r).
Proof.
  intros s. exists []. unfold deref.
  destruct (nth_error (heap s) r); cbn; now rewrite app_nil_r.
Qed.

Lemma grows_alloc (d : DataFrame) : grows (alloc d).
Proof. intros s. now exists [d]. Qed.

Lemma grows_input_species : grows input_species.
Proof. intros s. exists []. cbn. now rewrite app_nil_r. Qed.

Lemma grows_input_mass : grows input_mass.
Proof. intros s. exists []. cbn. now rewrite app_nil_r. Qed.

#[local] Hint Resolve grows_ret grows_lift grows_deref grows_alloc
  grows_input_species grows_input_mass : grows.

Ltac grows_steps :=
  repeat (first [ apply grows_bind; [|intros ?] | solve [auto with grows] ]).

Lemma grows_getitem (r : ref) (name : string) : grows (getitem r name).
Proof. unfold getitem. grows_steps. Qed.

Lemma grows_getitem_bool (r : ref) (mask : list bool) : grows (getitem_bool r mask).
Proof. unfold getitem_bool. grows_steps. Qed.

Lemma grows_loc_bool (r : ref) (mask : list bool) : grows (loc_bool r mask).
Proof. unfold loc_bool. grows_steps. Qed.

Lemma grows_getitem_list (r : ref) (cols : list string) : grows (getitem_list r cols).
Proof. unfold getitem_list. grows_steps. Qed.

#[local] Hint Resolve grows_getitem grows_getitem_bool grows_loc_bool
  grows_getitem_list : grows.

Lemma grows_filtered_df_body : grows filtered_df_body.
Proof. unfold filtered_df_body. grows_steps. Qed.

Lemma grows_reactive_calc (body : M ref) : grows body -> grows (reactive_calc body).
Proof.
  intros Hb s. unfold reactive_calc. destruct (Hb s) as (ext & E).
  assert (Hre : exists ext',
             heap (snd (let '(v, s') := body s in
                        (v, mkSession (heap s') (species_value s') (mass_value s')
                                      (Some ((species_value s, mass_value s), v))
                                      (S (exec_count s'))))) = heap s ++ ext').
  { destruct (body s) as [v s']. now exists ext. }
  destruct (calc_cache s) as [[k v]|]; [|exact Hre].
  destruct (filter_state_eqb k (species_value s, mass_value s)); [|exact Hre].
  exists []. cbn. now rewrite app_nil_r.
Qed.

Lemma grows_filtered_df : grows filtered_df.
Proof. apply grows_reactive_calc, grows_filtered_df_body. Qed.

#[local] Hint Resolve grows_filtered_df : grows.

Lemma render_grows (o : output) (s : Session) :
  exists ext, heap (render o s) = heap s ++ ext.
Proof.
  destruct o; cbn [render].
  - assert (G : grows count) by (unfold count; grows_steps). apply G.
  - assert (G : grows bill_length) by (unfold bill_length; grows_steps). apply G.
  - assert (G : grows bill_depth) by (unfold bill_depth; grows_steps). apply G.
  - assert (G : grows length_depth) by (unfold length_depth; grows_steps). apply G.
  - assert (G : grows summary_statistics)
      by (unfold summary_statistics; grows_steps).
    apply G.
Qed.

Lemma run_grows (trace : list event) (s : Session) :
  exists ext, heap (run s trace) = heap s ++ ext.
Proof.
  revert s. induction trace as [|e trace IH]; intros s.
  - exists []. cbn. now rewrite app_nil_r.
  - cbn [run fold_left]. destruct (IH (step s e)) as (e2 & E2).
    assert (H1 : exists e1, heap (step s e) = heap s ++ e1).
    { destruct e as [m|sel|o]; cbn [step].
      - exists []. cbn. now rewrite app_nil_r.
      - exists []. cbn. now rewrite app_nil_r.
      - apply render_grows. }
    destruct H1 as (e1 & E1). exists (e1 ++ e2).
    unfold run in E2. now rewrite E2, E1, app_assoc.
Qed.

(** C7: no event of a session (a change of an input, the rendering of any
    output, with the recomputations of the derived view they cause)
    changes the base table or any other table already in the store; a
    run of the body of [filtered_df] puts its result in a new object. *)
Theorem base_never_mutated (d : DataFrame) (s : Session) (trace : list event) :
  session_ok d s ->
  nth_error (heap (run s trace)) df = Some d /\
  (forall l x, nth_error (heap s) l = Some x ->
               nth_error (heap (run s trace)) l = Some x) /\
  (exists r s',
     filtered_df_body s = (Ok r, s') /\
     nth_error (heap s) r = None /\
     nth_error (heap s') r = Some (view_of d (species_value s) (mass_value s))).
Proof.
  intros Hok. destruct (run_grows trace s) as (ext & E).
  split; [|split].
  - rewrite E. apply nth_error_app_keep. apply Hok.
  - intros l x Hl. rewrite E. now apply nth_error_app_keep.
  - destruct Hok as (Hd & Hs & _).
    destruct (filtered_df_body_run d s Hd Hs) as (mid & Hrun).
    eexists. eexists. split; [exact Hrun|]. split.
    + apply nth_error_None. lia.
    + cbn [with_heap heap]. apply nth_error_second.
Qed.

(** ** Further properties of the filter *)

(** X1: with no species ticked the derived view has no row, whatever the
    bound, and the count metric is 0. *)
Theorem empty_selection_view_is_empty (d : DataFrame) (s : Session) :
  session_ok d s ->
  species_value s = [] ->
  exists v s',
    reads_view s v s' /\ rows v = [] /\
    exists s1, count s = (Ok 0, s1).
Proof.
  intros Hok Hsel. destruct (filtered_df_run d s Hok) as (s' & Hread & _).
  assert (E : rows (view_of d (species_value s) (mass_value s)) = []).
  { unfold view_of. cbn [rows]. apply filter_none. intros r _.
    destruct (keep d (species_value s) (mass_value s) r) eqn:Hk; [|reflexivity].
    apply keep_satisfies in Hk. destruct Hk as (sp & q & _ & Hin & _).
    rewrite Hsel in Hin. destruct Hin. }
  exists (view_of d (species_value s) (mass_value s)), s'.
  split; [exact Hread|]. split; [exact E|].
  destruct (count_run d s Hok) as (s1 & Hc). exists s1.
  rewrite Hc. unfold shape0. now rewrite E.
Qed.

Lemma empty_selection_view_is_empty_witness :
  session_ok sample_df (set_species [] (start sample_df)) /\
  species_value (set_species [] (start sample_df)) = [] /\
  exists v s',
    reads_view (set_species [] (start sample_df)) v s' /\ rows v = [] /\
    exists s1, count (set_species [] (start sample_df)) = (Ok 0, s1).
Proof.
  assert (Hok : session_ok sample_df (set_species [] (start sample_df)))
    by (repeat split; reflexivity).
  split; [exact Hok|]. split; [reflexivity|].
  exact (empty_selection_view_is_empty sample_df _ Hok eq_refl).
Defined.

Lemma numbers_nil_of_no_rows (name : string) (d : DataFrame) (rs : list Row) :
  (forall r, In r rs -> forall q, field name d r <> Some (Num q)) ->
  numbers name d rs = [].
Proof.
  induction rs as [|r rs IH]; intros H; [reflexivity|].
  unfold numbers in *. cbn [flat_map].
  rewrite IH by (intros x Hx; apply H; now right).
  pose proof (H r (or_introl eq_refl)) as Hr.
  destruct (field name d r) as [[|q|]|]; try reflexivity.
  now destruct (Hr q).
Qed.


Lemma filter_labels_sorted (f : Row -> bool) (rs : list Row) :
  StronglySorted Nat.lt (map label rs) ->
  StronglySorted Nat.lt (map label (filter f rs)).
Proof.
  induction rs as [|r rs IH]; intros H; [constructor|].
  cbn [map] in H. apply StronglySorted_inv in H. destruct H as [Hs Hall].
  cbn [filter]. destruct (f r); [|now apply IH].
  cbn [map]. constructor; [now apply IH|].
  rewrite Forall_forall in *. intros n Hn. apply Hall.
  apply in_map_iff in Hn. destruct Hn as (x & <- & Hx).
  apply in_map. apply filter_In in Hx. apply Hx.
Qed.

(** X3: row selection keeps the index labels of the base table: when the
    labels of the base table are strictly increasing (as its RangeIndex
    is), so are those of the derived view; in particular no label occurs
    twice and the rows keep their base order. *)
Theorem filtered_df_keeps_index_order (d : DataFrame) (s : Session) :
  session_ok d s ->
  StronglySorted Nat.lt (map label (rows d)) ->
  exists v s',
    reads_view s v s' /\
    StronglySorted Nat.lt (map label (rows v)) /\
    NoDup (map label (rows v)) /\
    incl (map label (rows v)) (map label (rows d)).
Proof.
  intros Hok Hsorted. destruct (filtered_df_run d s Hok) as (s' & Hread & _).
  exists (view_of d (species_value s) (mass_value s)), s'.
  split; [exact Hread|].
  assert (Hv : StronglySorted Nat.lt
                 (map label (rows (view_of d (species_value s) (mass_value s)))))
    by (unfold view_of; cbn [rows]; now apply filter_labels_sorted).
  split; [exact Hv|]. split.
  - clear -Hv. induction Hv as [|n l _ IH Hall]; constructor; [|exact IH].
    intros Hin. rewrite Forall_forall in Hall. specialize (Hall n Hin). lia.
  - intros n Hn. apply in_map_iff in Hn. destruct Hn as (x & <- & Hx).
    apply in_map. apply view_of_rows_In in Hx. apply Hx.
Qed.

Lemma filtered_df_keeps_index_order_witness :
  session_ok sample_df (start sample_df) /\
  StronglySorted Nat.lt (map label (rows sample_df)) /\
  exists v s',
    reads_view (start sample_df) v s' /\
    StronglySorted Nat.lt (map label (rows v)) /\
    NoDup (map label (rows v)) /\
    incl (map label (rows v)) (map label (rows sample_df)).
Proof.
  assert (Hok : session_ok sample_df (start sample_df))
    by (repeat split; reflexivity).
  assert (Hsorted : StronglySorted Nat.lt (map label (rows sample_df))).
  { cbn. repeat (constructor; [|repeat (constructor; try lia)]). constructor. }
  split; [exact Hok|]. split; [exact Hsorted|].
  exact (filtered_df_keeps_index_order sample_df _ Hok Hsorted).
Defined.

Lemma column_all_filter (p : cell -> bool) (name : string) (d : DataFrame)
      (f : Row -> bool) :
  column_all p name d = true ->
  column_all p name (mkDataFrame (columns d) (filter f (rows d))) = true.
Proof.
  unfold column_all. cbn [columns rows].
  destruct (get_loc name (columns d)) as [i|]; [|discriminate].
  rewrite !forallb_forall. intros H r Hr. apply H.
  apply filter_In in Hr. apply Hr.
Qed.

(** X4: the derived view has the shape the outputs rely on: rows as wide
    as the header, text in the species and island columns, numbers or NaN
    in the two bill columns and the mass column. *)
Theorem filtered_df_keeps_schema (d : DataFrame) (s : Session) :
  session_ok d s ->
  exists v s', reads_view s v s' /\ penguins_schema v = true.
Proof.
  intros Hok. destruct (filtered_df_run d s Hok) as (s' & Hread & _).
  exists (view_of d (species_value s) (mass_value s)), s'.
  split; [exact Hread|].
  destruct Hok as (_ & Hs & _).
  destruct (penguins_schema_spec d Hs) as (Hwf & H1 & H2 & H3 & H4 & H5).
  unfold penguins_schema, view_of.
  rewrite !column_all_filter by assumption.
  rewrite !andb_true_r. unfold well_formed in *. cbn [rows columns].
  rewrite forallb_forall in *. intros r Hr. apply Hwf.
  apply filter_In in Hr. apply Hr.
Qed.

Lemma filtered_df_keeps_schema_witness :
  session_ok sample_df adelie_session /\
  exists v s', reads_view adelie_session v s' /\ penguins_schema v = true.
Proof.
  assert (Hok : session_ok sample_df adelie_session)
    by (repeat split; reflexivity).
  split; [exact Hok|].
  exact (filtered_df_keeps_schema sample_df adelie_session Hok).
Defined.

(** X5: [length_depth] plots the derived view itself: the figure refers to
    the table that [filtered_df] returns, takes x from bill_length_mm, y
    from bill_depth_mm and the colour from species, and these three are
    columns of that table. *)
Theorem length_depth_plots_view (d : DataFrame) (s : Session) :
  session_ok d s ->
  exists v s' fig,
    reads_view s v s' /\
    length_depth s = (Ok fig, s') /\
    nth_error (heap s') (fig_data fig) = Some v /\
    fig_x fig = "bill_length_mm"%string /\
    fig_y fig = "bill_depth_mm"%string /\
    fig_hue fig = "species"%string /\
    (forall name, In name [fig_x fig; fig_y fig; fig_hue fig] ->
                  get_loc name (columns v) <> None).
Proof.
  intros Hok. destruct (filtered_df_run d s Hok) as (s' & Hread & _).
  pose proof Hread as (r & Hrun & Hr).
  exists (view_of d (species_value s) (mass_value s)), s'.
  eexists. split; [exact Hread|]. split; [|split; [|split; [|split; [|split]]]].
  - unfold length_depth. rewrite (bind_run _ _ _ _ _ Hrun). reflexivity.
  - exact Hr.
  - reflexivity.
  - reflexivity.
  - reflexivity.
  - destruct Hok as (_ & Hs & _).
    destruct (penguins_schema_spec d Hs) as (_ & H1 & _ & H3 & H4 & _).
    destruct (column_all_spec _ _ _ H1) as (i1 & L1 & _).
    destruct (column_all_spec _ _ _ H3) as (i3 & L3 & _).
    destruct (column_all_spec _ _ _ H4) as (i4 & L4 & _).
    cbn [fig_x fig_y fig_hue view_of columns].
    intros name [<-|[<-|[<-|[]]]]; congruence.
Qed.

Lemma length_depth_plots_view_witness :
  session_ok sample_df adelie_session /\
  exists v s' fig,
    reads_view adelie_session v s' /\
    length_depth adelie_session = (Ok fig, s') /\
    nth_error (heap s') (fig_data fig) = Some v /\
    fig_x fig = "bill_length_mm"%string /\
    fig_y fig = "bill_depth_mm"%string /\
    fig_hue fig = "species"%string /\
    (forall name, In name [fig_x fig; fig_y fig; fig_hue fig] ->
                  get_loc name (columns v) <> None).
Proof.
  assert (Hok : session_ok sample_df adelie_session)
    by (repeat split; reflexivity).
  split; [exact Hok|].
  exact (length_depth_plots_view sample_df adelie_session Hok).
Defined.

(** ** Tables of another shape *)

(** The body up to the comparison of line 137, for a table that has the
    two columns the filter reads. *)
Lemma filtered_df_body_steps (d : DataFrame) (s : Session) (isp im : nat) :
  nth_error (heap s) df = Some d ->
  get_loc "species" (columns d) = Some isp ->
  get_loc "body_mass_g" (columns d) = Some im ->
  let mid := mkDataFrame (columns d)
               (filter (fun r => cell_isin (species_value s) (cell_at isp r))
                       (rows d)) in
  let s1 := with_heap s (heap s ++ [mid]) in
  filtered_df_body s =
  (mask <- lift (lt (map (cell_at im) (rows mid)) (mass_value s)) ;;
   loc_bool (length (heap s)) mask) s1.
Proof.
  intros Hd Lsp Lm mid s1. unfold filtered_df_body.
  rewrite (bind_run _ _ _ _ _ (getitem_run df "species" d isp s Hd Lsp)).
  rewrite (bind_run _ _ s s (species_value s)) by reflexivity.
  unfold isin. rewrite map_map.
  rewrite (bind_run _ _ _ _ _ (getitem_bool_run df d _ s Hd)).
  fold mid. fold s1.
  assert (H1 : nth_error (heap s1) (length (heap s)) = Some mid)
    by apply nth_error_snoc.
  rewrite (bind_run _ _ _ _ _ (getitem_run _ "body_mass_g" mid im s1 H1 Lm)).
  now rewrite (bind_run _ _ s1 s1 (mass_value s)) by reflexivity.
Qed.

Lemma lt_text (m : Z) (l : Series) (x : string) :
  In (Str x) l -> lt l m = Raise TypeError.
Proof.
  unfold lt. induction l as [|c l IH]; intros Hin; [destruct Hin|].
  cbn [result_map]. destruct c as [y|q|]; cbn [cell_lt result_bind].
  - reflexivity.
  - destruct Hin as [Hc|Hin]; [discriminate|]. now rewrite IH.
  - destruct Hin as [Hc|Hin]; [discriminate|]. now rewrite IH.
Qed.

(** X6: on a table without a species column the body of [filtered_df]
    raises KeyError for "species" at line 136, before anything is
    allocated: the session is left as it was. *)
Theorem missing_species_column_raises (d : DataFrame) (s : Session) :
  nth_error (heap s) df = Some d ->
  get_loc "species" (columns d) = None ->
  filtered_df_body s = (Raise (KeyError "species"), s).
Proof.
  intros Hd Hnone. unfold filtered_df_body, getitem.
  unfold bind at 1. unfold bind at 1.
  rewrite (deref_run df d s Hd). unfold lift, getitem_col.
  now rewrite Hnone.
Qed.

Lemma missing_species_column_raises_witness :
  filtered_df_body (start no_species_df) =
  (Raise (KeyError "species"), start no_species_df).
Proof.
  exact (missing_species_column_raises no_species_df (start no_species_df)
           eq_refl eq_refl).
Defined.

(** X7: on a table with a species column but no body_mass_g column the
    body raises KeyError for "body_mass_g" at line 137, after the table of
    the selected species has been allocated; the base table is
    untouched. *)
Theorem missing_mass_column_raises (d : DataFrame) (s : Session) (isp : nat) :
  nth_error (heap s) df = Some d ->
  get_loc "species" (columns d) = Some isp ->
  get_loc "body_mass_g" (columns d) = None ->
  exists mid,
    filtered_df_body s =
      (Raise (KeyError "body_mass_g"), with_heap s (heap s ++ [mid])) /\
    columns mid = columns d /\
    nth_error (heap s ++ [mid]) df = Some d.
Proof.
  intros Hd Lsp Hnone.
  set (mid := mkDataFrame (columns d)
                (filter (fun r => cell_isin (species_value s) (cell_at isp r))
                        (rows d))).
  exists mid. split; [|split; [reflexivity | now apply nth_error_app_keep]].
  unfold filtered_df_body.
  rewrite (bind_run _ _ _ _ _ (getitem_run df "species" d isp s Hd Lsp)).
  rewrite (bind_run _ _ s s (species_value s)) by reflexivity.
  unfold isin. rewrite map_map.
  rewrite (bind_run _ _ _ _ _ (getitem_bool_run df d _ s Hd)).
  fold mid. set (s1 := with_heap s (heap s ++ [mid])).
  assert (H1 : nth_error (heap s1) (length (heap s)) = Some mid)
    by apply nth_error_snoc.
  unfold getitem. unfold bind at 1. unfold bind at 1.
  rewrite (deref_run _ mid s1 H1). unfold lift, getitem_col.
  cbn [mid columns]. now rewrite Hnone.
Qed.

Lemma missing_mass_column_raises_witness :
  exists mid,
    filtered_df_body (start no_mass_df) =
      (Raise (KeyError "body_mass_g"),
       with_heap (start no_mass_df) (heap (start no_mass_df) ++ [mid])) /\
    columns mid = columns no_mass_df /\
    nth_error (heap (start no_mass_df) ++ [mid]) df = Some no_mass_df.
Proof.
  exact (missing_mass_column_raises no_mass_df (start no_mass_df) 0
           eq_refl eq_refl eq_refl).
Defined.

(** X8: a text in the mass cell of a row whose species is selected makes
    the comparison of line 137 raise TypeError; the base table is
    untouched. *)
Theorem text_mass_of_selected_row_raises
        (d : DataFrame) (s : Session) (isp im : nat) (r0 : Row) (x : string) :
  nth_error (heap s) df = Some d ->
  get_loc "species" (columns d) = Some isp ->
  get_loc "body_mass_g" (columns d) = Some im ->
  In r0 (rows d) ->
  cell_isin (species_value s) (cell_at isp r0) = true ->
  cell_at im r0 = Str x ->
  exists s',
    filtered_df_body s = (Raise TypeError, s') /\
    nth_error (heap s') df = Some d.
Proof.
  intros Hd Lsp Lm Hin Hsel Hx.
  rewrite (filtered_df_body_steps d s isp im Hd Lsp Lm).
  eexists. split.
  - unfold bind, lift. rewrite (lt_text _ _ x); [reflexivity|].
    rewrite <- Hx. apply in_map. cbn [rows]. apply filter_In. now split.
  - cbn [with_heap heap]. now apply nth_error_app_keep.
Qed.

Lemma text_mass_of_selected_row_raises_witness :
  exists s',
    filtered_df_body (start text_mass_df) = (Raise TypeError, s') /\
    nth_error (heap s') df = Some text_mass_df.
Proof.
  apply (text_mass_of_selected_row_raises text_mass_df (start text_mass_df)
           0 1 (mkRow 1 [Str "Gentoo"; Str "heavy"]) "heavy");
    try reflexivity.
  right. left. reflexivity.
Defined.

(** X9: the comparison of line 137 runs on the rows of the selected
    species only: when every such row has a number or NaN as its mass, the
    body returns the derived view, whatever the mass cells of the other
    rows hold. *)
Theorem unselected_rows_are_not_compared
        (d : DataFrame) (s : Session) (isp im : nat) :
  nth_error (heap s) df = Some d ->
  get_loc "species" (columns d) = Some isp ->
  get_loc "body_mass_g" (columns d) = Some im ->
  (forall r, In r (rows d) ->
             cell_isin (species_value s) (cell_at isp r) = true ->
             is_float (cell_at im r) = true) ->
  exists r s',
    filtered_df_body s = (Ok r, s') /\
    nth_error (heap s') r = Some (view_of d (species_value s) (mass_value s)) /\
    nth_error (heap s') df = Some d.
Proof.
  intros Hd Lsp Lm Hfl.
  rewrite (filtered_df_body_steps d s isp im Hd Lsp Lm).
  set (mid := mkDataFrame (columns d)
                (filter (fun r => cell_isin (species_value s) (cell_at isp r))
                        (rows d))).
  set (s1 := with_heap s (heap s ++ [mid])).
  assert (H1 : nth_error (heap s1) (length (heap s)) = Some mid)
    by apply nth_error_snoc.
  assert (Hlt : lift (lt (map (cell_at im) (rows mid)) (mass_value s)) s1 =
                (Ok (map (fun r => cell_ltb (mass_value s) (cell_at im r))
                         (rows mid)), s1)).
  { unfold lift. rewrite lt_floats; [reflexivity|].
    intros r Hr. cbn [mid rows] in Hr. apply filter_In in Hr.
    now apply Hfl. }
  rewrite (bind_run _ _ _ _ _ Hlt).
  rewrite (loc_bool_run _ mid _ s1 H1).
  assert (E : mkDataFrame (columns mid)
                (filter (fun r => cell_ltb (mass_value s) (cell_at im r))
                        (rows mid)) =
              view_of d (species_value s) (mass_value s)).
  { unfold view_of, mid. cbn [columns rows]. rewrite filter_filter.
    f_equal. apply filter_ext. intros r. symmetry. now apply keep_split. }
  rewrite E. eexists. eexists. split; [reflexivity|].
  cbn [with_heap heap]. split.
  - apply nth_error_snoc.
  - apply nth_error_app_keep. cbn [s1 with_heap heap].
    now apply nth_error_app_keep.
Qed.

Lemma unselected_rows_are_not_compared_witness :
  exists r s',
    filtered_df_body (set_species ["Adelie"%string] (start text_mass_df)) =
      (Ok r, s') /\
    nth_error (heap s') r =
      Some (view_of text_mass_df ["Adelie"%string] 6000) /\
    nth_error (heap s') df = Some text_mass_df.
Proof.
  apply (unselected_rows_are_not_compared text_mass_df
           (set_species ["Adelie"%string] (start text_mass_df)) 0 1);
    try reflexivity.
  intros r Hr Hsel. cbn [rows text_mass_df] in Hr.
  destruct Hr as [<-|[<-|[]]]; [reflexivity | discriminate Hsel].
Defined.

(** ** The selection and the slider *)

Lemma view_of_same_members (d : DataFrame) (sel sel' : list string) (m : Z) :
  (forall x, In x sel' <-> In x sel) ->
  view_of d sel' m = view_of d sel m.
Proof.
  intros Hmem. unfold view_of. f_equal. apply filter_ext_in. intros r _.
  destruct (keep d sel m r) eqn:Hk.
  - apply keep_satisfies. apply keep_satisfies in Hk.
    apply satisfies_species_mono with sel; [|assumption].
    intros x Hx. now apply Hmem.
  - destruct (keep d sel' m r) eqn:Hk'; [|reflexivity].
    apply keep_satisfies in Hk'.
    assert (Hs : satisfies d sel m r).
    { apply satisfies_species_mono with sel'; [|assumption].
      intros x Hx. now apply Hmem. }
    apply keep_satisfies in Hs. congruence.
Qed.

(** X10: the derived view depends on the selection as a set: ticking the
    same species in another order, or listing one twice, gives the same
    table. *)
Theorem selection_order_is_irrelevant (d : DataFrame) (s : Session)
        (sel' : list string) :
  session_ok d s ->
  (forall x, In x sel' <-> In x (species_value s)) ->
  exists v s1 s2,
    reads_view s v s1 /\ reads_view (set_species sel' s1) v s2.
Proof.
  intros Hok Hmem.
  destruct (filtered_df_run d s Hok) as (s1 & Hread & Hok1 & _ & Hm & _).
  destruct (filtered_df_run d _ (session_ok_set_species d s1 sel' Hok1))
    as (s2 & Hread2 & _).
  cbn [set_species species_value mass_value] in Hread2.
  rewrite Hm, (view_of_same_members d _ sel' _ Hmem) in Hread2.
  eexists. exists s1, s2. split; [exact Hread | exact Hread2].
Qed.

Lemma selection_order_is_irrelevant_witness :
  session_ok sample_df (start sample_df) /\
  exists v s1 s2,
    reads_view (start sample_df) v s1 /\
    reads_view
      (set_species ["Chinstrap"; "Gentoo"; "Adelie"; "Gentoo"]%string s1) v s2.
Proof.
  assert (Hok : session_ok sample_df (start sample_df))
    by (repeat split; reflexivity).
  split; [exact Hok|].
  apply (selection_order_is_irrelevant sample_df (start sample_df) _ Hok).
  intros x. cbn. tauto.
Defined.

Lemma filter_length_split {A : Type} (f g h : A -> bool) (l : list A) :
  (forall a, In a l -> f a = g a || h a) ->
  (forall a, In a l -> g a && h a = false) ->
  length (filter f l) = length (filter g l) + length (filter h l).
Proof.
  induction l as [|a l IH]; intros Hor Hdis; [reflexivity|].
  assert (IH' := IH (fun x Hx => Hor x (or_intror Hx))
                    (fun x Hx => Hdis x (or_intror Hx))).
  pose proof (Hor a (or_introl eq_refl)) as Ha.
  pose proof (Hdis a (or_introl eq_refl)) as Hb.
  cbn [filter]. rewrite Ha.
  destruct (g a), (h a); cbn [orb andb length] in *; try discriminate; lia.
Qed.

Lemma keep_app (d : DataFrame) (sel1 sel2 : list string) (m : Z) (r : Row) :
  keep d (sel1 ++ sel2) m r = keep d sel1 m r || keep d sel2 m r.
Proof.
  unfold keep. destruct (field "species" d r) as [[sp| |]|]; try reflexivity.
  destruct (field "body_mass_g" d r) as [[|q|]|]; try reflexivity.
  rewrite existsb_app.
  destruct (existsb (String.eqb sp) sel1), (existsb (String.eqb sp) sel2),
           (Qltb q (inject_Z m)); reflexivity.
Qed.

(** X11: the counts of disjoint selections add up: with the bound fixed,
    the number of rows for the species of two lists that share no species
    is the sum of the numbers of rows for each list. *)
Theorem counts_of_disjoint_selections_add (d : DataFrame) (s : Session)
        (sel1 sel2 : list string) :
  session_ok d s ->
  (forall x, In x sel1 -> ~ In x sel2) ->
  exists n n1 n2 s0 s1 s2,
    count (set_species (sel1 ++ sel2) s) = (Ok n, s0) /\
    count (set_species sel1 s) = (Ok n1, s1) /\
    count (set_species sel2 s) = (Ok n2, s2) /\
    n = n1 + n2.
Proof.
  intros Hok Hdis.
  destruct (count_run d _ (session_ok_set_species d s (sel1 ++ sel2) Hok))
    as (s0 & H0).
  destruct (count_run d _ (session_ok_set_species d s sel1 Hok)) as (s1 & H1).
  destruct (count_run d _ (session_ok_set_species d s sel2 Hok)) as (s2 & H2).
  cbn [set_species species_value mass_value] in H0, H1, H2.
  do 3 eexists. exists s0, s1, s2.
  split; [exact H0|]. split; [exact H1|]. split; [exact H2|].
  unfold shape0, view_of. cbn [rows]. apply filter_length_split.
  - intros r _. apply keep_app.
  - intros r _. destruct (keep d sel1 (mass_value s) r) eqn:K1; [|reflexivity].
    destruct (keep d sel2 (mass_value s) r) eqn:K2; [|reflexivity].
    apply keep_satisfies in K1. apply keep_satisfies in K2.
    destruct K1 as (sp & q & Hs & Hin & _).
    destruct K2 as (sp' & q' & Hs' & Hin' & _).
    assert (sp' = sp) by congruence. subst sp'.
    destruct (Hdis sp Hin Hin').
Qed.

Lemma counts_of_disjoint_selections_add_witness :
  session_ok sample_df (start sample_df) /\
  exists n n1 n2 s0 s1 s2,
    count (set_species (["Adelie"%string] ++ ["Gentoo"%string; "Chinstrap"%string])
                       (start sample_df)) = (Ok n, s0) /\
    count (set_species ["Adelie"%string] (start sample_df)) = (Ok n1, s1) /\
    count (set_species ["Gentoo"; "Chinstrap"]%string (start sample_df)) =
      (Ok n2, s2) /\
    n = n1 + n2.
Proof.
  assert (Hok : session_ok sample_df (start sample_df))
    by (repeat split; reflexivity).
  split; [exact Hok|].
  apply (counts_of_disjoint_selections_add sample_df (start sample_df) _ _ Hok).
  intros x [<-|[]] [H|[H|[]]]; discriminate H.
Defined.

(** X12: at the start of a session (slider at 6000, the three species
    ticked), on a table whose species are among the three choices, the
    derived view holds exactly the rows whose body mass is a number below
    6000. *)
Theorem default_view (d : DataFrame) :
  penguins_schema d = true ->
  (forall r sp, In r (rows d) -> field "species" d r = Some (Str sp) ->
                In sp species_choices) ->
  exists v s',
    reads_view (start d) v s' /\
    forall r, In r (rows v) <->
              In r (rows d) /\
              exists q, field "body_mass_g" d r = Some (Num q) /\
                        (q < 6000 # 1)%Q.
Proof.
  intros Hs Hsp.
  destruct (filtered_df_run d (start d) (session_ok_start d Hs))
    as (s' & Hread & _).
  eexists. exists s'. split; [exact Hread|].
  intros r. rewrite view_of_rows_In. cbn [start species_value mass_value].
  split.
  - intros (Hr & sp & q & _ & _ & Hq & Hlt). split; [exact Hr|].
    exists q. split; [exact Hq | exact Hlt].
  - intros (Hr & q & Hq & Hlt). split; [exact Hr|].
    destruct (schema_species d r Hs Hr) as (sp & Hf).
    exists sp, q. repeat split; try assumption. now apply (Hsp r).
Qed.

Lemma default_view_witness :
  penguins_schema sample_df = true /\
  exists v s',
    reads_view (start sample_df) v s' /\
    forall r, In r (rows v) <->
              In r (rows sample_df) /\
              exists q, field "body_mass_g" sample_df r = Some (Num q) /\
                        (q < 6000 # 1)%Q.
Proof.
  split; [reflexivity|].
  apply (default_view sample_df eq_refl).
  intros r sp Hr Hf. each_row Hr; vm_compute in Hf; injection Hf as <-;
    vm_compute; auto.
Defined.

(** X13: the slider stops at 6000 and the comparison is strict, so for no
    position of the slider and no selection does a bird of 6000 g or more
    pass the filter. *)
Theorem heavy_birds_never_shown (d : DataFrame) (s : Session) (r : Row) (q : Q) :
  session_ok d s ->
  (mass_value s <= mass_max)%Z ->
  field "body_mass_g" d r = Some (Num q) ->
  (6000 # 1 <= q)%Q ->
  exists v s', reads_view s v s' /\ ~ In r (rows v).
Proof.
  intros Hok Hmax Hq Hheavy.
  destruct (filtered_df_run d s Hok) as (s' & Hread & _).
  eexists. exists s'. split; [exact Hread|].
  intros Hin. apply view_of_rows_In in Hin.
  destruct Hin as (_ & sp & q' & _ & _ & Hq' & Hlt).
  assert (q' = q) by congruence. subst q'.
  apply (Qlt_not_le _ _ Hlt).
  apply Qle_trans with (6000 # 1)%Q; [|exact Hheavy].
  change (6000 # 1)%Q with (inject_Z mass_max). now rewrite <- Zle_Qle.
Qed.

Lemma heavy_birds_never_shown_witness :
  session_ok sample_df (start sample_df) /\
  (mass_value (start sample_df) <= mass_max)%Z /\
  exists v s', reads_view (start sample_df) v s' /\ ~ In gentoo_row (rows v).
Proof.
  assert (Hok : session_ok sample_df (start sample_df))
    by (repeat split; reflexivity).
  assert (Hmax : (mass_value (start sample_df) <= mass_max)%Z)
    by (vm_compute; discriminate).
  split; [exact Hok|]. split; [exact Hmax|].
  apply (heavy_birds_never_shown sample_df (start sample_df) gentoo_row
           (6000 # 1) Hok Hmax eq_refl).
  vm_compute. discriminate.
Defined.

(** ** Sessions along a trace of events *)

Lemma reads_only_ret {A : Type} (a : A) : reads_only (ret a).
Proof. intros s. reflexivity. Qed.

Lemma reads_only_lift {A : Type} (r : result A) : reads_only (lift r).
Proof. intros s. reflexivity. Qed.

Lemma reads_only_deref (r : ref) : reads_only (deref r).
Proof. intros s. unfold deref. now destruct (nth_error (heap s) r). Qed.

Lemma reads_only_bind {A B : Type} (m : M A) (k : A -> M B) :
  reads_only m -> (forall a, reads_only (k a)) -> reads_only (bind m k).
Proof.
  intros Hm Hk s. unfold bind. specialize (Hm s).
  destruct (m s) as [[a|e] s1]; cbn [snd] in *; subst s1; [apply Hk | reflexivity].
Qed.

Lemma reads_only_getitem (r : ref) (name : string) : reads_only (getitem r name).
Proof.
  unfold getitem. apply reads_only_bind; [apply reads_only_deref|].
  intros d. apply reads_only_lift.
Qed.

(** After a first step, a continuation that only reads leaves the session
    of the first step. *)
Lemma bind_reads_only {A B : Type} (m : M A) (k : A -> M B) (s : Session) :
  (forall a, reads_only (k a)) -> snd (bind m k s) = snd (m s).
Proof.
  intros Hk. unfold bind. destruct (m s) as [[a|e] s1]; cbn [snd];
    [apply Hk | reflexivity].
Qed.

Lemma session_ok_with_heap (d : DataFrame) (s : Session) (ext : list DataFrame) :
  session_ok d s -> session_ok d (with_heap s (heap s ++ ext)).
Proof.
  intros (Hd & Hs & Hc). repeat split; cbn [with_heap heap].
  - now apply nth_error_app_keep.
  - assumption.
  - unfold cache_coherent in *. cbn [with_heap calc_cache heap].
    destruct (calc_cache s) as [[k v]|]; [|exact I].
    destruct Hc as (r & Hv & Hr). exists r. split; [assumption|].
    now apply nth_error_app_keep.
Qed.

Lemma getitem_list_state (r : ref) (cols : list string) (s : Session) :
  exists ext, snd (getitem_list r cols s) = with_heap s (heap s ++ ext).
Proof.
  assert (Hs : with_heap s (heap s ++ []) = s)
    by (destruct s; unfold with_heap; cbn; now rewrite app_nil_r).
  unfold getitem_list, bind, deref, lift.
  destruct (nth_error (heap s) r) as [d|]; [|exists []; now rewrite Hs].
  destruct (getitem_cols d cols) as [d'|e]; [|exists []; now rewrite Hs].
  now exists [d'].
Qed.

(** The session an output leaves: that of the read of [filtered_df], with
    at most one more table in the store. *)
Lemma render_state (o : output) (s : Session) :
  exists ext,
    render o s =
    with_heap (snd (filtered_df s)) (heap (snd (filtered_df s)) ++ ext).
Proof.
  assert (Hnil : forall t, with_heap t (heap t ++ []) = t)
    by (intros t; destruct t; unfold with_heap; cbn; now rewrite app_nil_r).
  destruct o; cbn [render].
  - exists []. rewrite Hnil. unfold count. apply bind_reads_only.
    intros r. apply reads_only_bind; [apply reads_only_deref|].
    intros d. apply reads_only_ret.
  - exists []. rewrite Hnil. unfold bill_length. apply bind_reads_only.
    intros r. apply reads_only_bind; [apply reads_only_getitem|].
    intros c. apply reads_only_bind; [apply reads_only_lift|].
    intros m. apply reads_only_bind; [apply reads_only_lift|].
    intros t. apply reads_only_ret.
  - exists []. rewrite Hnil. unfold bill_depth. apply bind_reads_only.
    intros r. apply reads_only_bind; [apply reads_only_getitem|].
    intros c. apply reads_only_bind; [apply reads_only_lift|].
    intros m. apply reads_only_bind; [apply reads_only_lift|].
    intros t. apply reads_only_ret.
  - exists []. rewrite Hnil. unfold length_depth. apply bind_reads_only.
    intros r. apply reads_only_ret.
  - unfold summary_statistics, bind.
    destruct (filtered_df s) as [[r|e] s1]; cbn [snd].
    + destruct (getitem_list_state r grid_cols s1) as (ext & E).
      exists ext. rewrite <- E.
      destruct (getitem_list r grid_cols s1) as [[g|e] s2]; reflexivity.
    + exists []. now rewrite Hnil.
Qed.

Lemma step_ok (d : DataFrame) (s : Session) (e : event) :
  session_ok d s -> session_ok d (step s e).
Proof.
  intros Hok. destruct e as [m|sel|o]; cbn [step].
  - now apply session_ok_set_mass.
  - now apply session_ok_set_species.
  - destruct (render_state o s) as (ext & E). rewrite E.
    apply session_ok_with_heap.
    destruct (filtered_df_run d s Hok) as (s' & (r & Hrun & _) & Hok' & _).
    now rewrite Hrun.
Qed.

Lemma run_ok (d : DataFrame) (trace : list event) (s : Session) :
  session_ok d s -> session_ok d (run s trace).
Proof.
  revert s. induction trace as [|e trace IH]; intros s Hok; [exact Hok|].
  cbn [run fold_left]. apply IH. now apply step_ok.
Qed.

(** X14: what the outputs show is never stale: after any sequence of input
    changes and renderings since the start of the session, a read of
    [filtered_df] returns the rows of the base table that pass the filter
    for the values the two inputs have at that moment. *)
Theorem view_is_current_after_any_trace (d : DataFrame) (trace : list event) :
  penguins_schema d = true ->
  exists v s',
    reads_view (run (start d) trace) v s' /\
    forall r, In r (rows v) <->
              In r (rows d) /\
              satisfies d (species_value (run (start d) trace))
                        (mass_value (run (start d) trace)) r.
Proof.
  intros Hs.
  pose proof (run_ok d trace (start d) (session_ok_start d Hs)) as Hok.
  destruct (filtered_df_run d _ Hok) as (s' & Hread & _).
  eexists. exists s'. split; [exact Hread|].
  intros r. apply view_of_rows_In.
Qed.

(** ** The outputs together *)

Lemma count_state (s s' : Session) (r : ref) (v : DataFrame) :
  filtered_df s = (Ok r, s') -> nth_error (heap s') r = Some v ->
  count s = (Ok (shape0 v), s').
Proof.
  intros Hrun Hr. unfold count. rewrite (bind_run _ _ _ _ _ Hrun).
  now rewrite (bind_run _ _ _ _ _ (deref_run r v s' Hr)).
Qed.

Lemma summary_statistics_run (d : DataFrame) (s : Session) :
  session_ok d s ->
  exists r s0 locs,
    filtered_df s = (Ok r, s0) /\
    summary_statistics s =
      (Ok (mkDataGrid (length (heap s0)) true),
       with_heap s0
         (heap s0 ++
          [mkDataFrame grid_cols
             (map (project locs)
                  (rows (view_of d (species_value s) (mass_value s))))])).
Proof.
  intros Hok.
  destruct (filtered_df_run d s Hok) as (s0 & (r & Hrun & Hr) & _).
  destruct Hok as (_ & Hs & _).
  destruct (schema_grid_locs d Hs) as (locs & Hlocs & _).
  exists r, s0, locs. split; [exact Hrun|].
  unfold summary_statistics. rewrite (bind_run _ _ _ _ _ Hrun).
  unfold getitem_list.
  set (v := view_of d (species_value s) (mass_value s)) in *.
  set (grid := mkDataFrame grid_cols (map (project locs) (rows v))).
  assert (Hg : (d0 <- deref r ;; d' <- lift (getitem_cols d0 grid_cols) ;; alloc d') s0
               = (Ok (length (heap s0)), with_heap s0 (heap s0 ++ [grid]))).
  { rewrite (bind_run _ _ _ _ _ (deref_run r v s0 Hr)).
    unfold bind, lift, getitem_cols.
    change (get_locs grid_cols v) with (get_locs grid_cols d).
    rewrite Hlocs. reflexivity. }
  now rewrite (bind_run _ _ _ _ _ Hg).
Qed.

(** X15: the outputs agree with each other: when the count is rendered
    and then the data grid, with no change of an input in between, the
    grid has as many rows as the count says, with the index labels of the
    derived view in the same order. *)
Theorem grid_rows_match_count (d : DataFrame) (s : Session) :
  session_ok d s ->
  exists v n s1 g grid s2,
    reads_view s v s1 /\
    count s = (Ok n, s1) /\
    summary_statistics s1 = (Ok (mkDataGrid g true), s2) /\
    nth_error (heap s2) g = Some grid /\
    shape0 grid = n /\
    map label (rows grid) = map label (rows v).
Proof.
  intros Hok.
  destruct (filtered_df_run d s Hok) as (s1 & Hread & Hok1 & Hsp & Hm & _).
  pose proof Hread as (r & Hrun & Hr).
  destruct (summary_statistics_run d s1 Hok1) as (r' & s0 & locs & _ & Hss).
  rewrite Hsp, Hm in Hss.
  set (v := view_of d (species_value s) (mass_value s)) in *.
  exists v, (shape0 v), s1. do 3 eexists.
  split; [exact Hread|]. split; [now apply (count_state s s1 r v)|].
  split; [exact Hss|]. split; [cbn [with_heap heap]; apply nth_error_snoc|].
  split.
  - unfold shape0. cbn [rows]. apply length_map.
  - cbn [rows]. rewrite map_map. reflexivity.
Qed.

Lemma grid_rows_match_count_witness :
  session_ok sample_df (start sample_df) /\
  exists v n s1 g grid s2,
    reads_view (start sample_df) v s1 /\
    count (start sample_df) = (Ok n, s1) /\
    summary_statistics s1 = (Ok (mkDataGrid g true), s2) /\
    nth_error (heap s2) g = Some grid /\
    shape0 grid = n /\
    map label (rows grid) = map label (rows v).
Proof.
  assert (Hok : session_ok sample_df (start sample_df))
    by (repeat split; reflexivity).
  split; [exact Hok|].
  exact (grid_rows_match_count sample_df (start sample_df) Hok).
Defined.

(** X16: the format [.1f] of the mean metrics shows the tenth nearest to
    the value: the text is the numeral of [t] tenths, carrying the sign of
    the value, for an integer [t] at most one half away from ten times the
    value. *)
Theorem one_decimal_is_nearest_tenth (q : Q) :
  exists t : Z,
    one_decimal q = show_tenths (Qnum q <? 0)%Z (Z.to_nat (Z.abs t)) /\
    (inject_Z t - (1 # 2) <= q * inject_Z 10)%Q /\
    (q * inject_Z 10 <= inject_Z t + (1 # 2))%Q.
Proof.
  exists (round_half_even (q * inject_Z 10)). split; [reflexivity|].
  apply round_half_even_nearest.
Qed.

End Proofs.

(** ** At the sample tables *)

(** The closed statements below are about the program with float64
    summation from left to right. *)
#[local] Existing Instance sequential_sum.

Lemma metrics_of_view_witness :
  session_ok sample_df (start sample_df) /\
  exists v s0,
    reads_view (start sample_df) v s0 /\
    (exists s1, count (start sample_df) = (Ok (length (rows v)), s1)) /\
    (exists s2, bill_length (start sample_df) =
                (Ok (mean_text "bill_length_mm" sample_df (rows v)), s2)) /\
    (exists s3, bill_depth (start sample_df) =
                (Ok (mean_text "bill_depth_mm" sample_df (rows v)), s3)).
Proof.
  assert (Hok : session_ok sample_df (start sample_df))
    by (repeat split; reflexivity).
  split; [exact Hok|].
  exact (metrics_of_view sample_df (start sample_df) Hok).
Defined.

(** On the sample table at the start of a session: two birds pass the
    filter, with mean bill length (39.1 + 46.9) / 2 = 43.0 mm. *)
Example metrics_of_sample :
  fst (count (start sample_df)) = Ok 2 /\
  fst (bill_length (start sample_df)) = Ok "43.0 mm"%string.
Proof. split; vm_compute; reflexivity. Qed.

(** The float64 sum of 36.5 and 36.4 halves to a float64 just above 36.45,
    and that of 16.6 and 17.1 to one just above 16.85: the metrics of the
    two birds read 36.5 and 16.9. *)
Example means_of_two_birds :
  fst (bill_length (set_species ["Adelie"%string]
                      (set_mass 2900 (start biscoe_df)))) =
    Ok "36.5 mm"%string /\
  fst (bill_depth (set_species ["Adelie"%string]
                     (set_mass 2900 (start biscoe_df)))) =
    Ok "16.9 mm"%string.
Proof. split; vm_compute; reflexivity. Qed.

(** C8 as written fails: with no species ticked the derived view is empty,
    and the mean metrics read "nan mm", which is no number rounded to one
    decimal place. *)
Lemma mean_of_empty_view :
  session_ok sample_df (set_species [] (start sample_df)) /\
  fst (count (set_species [] (start sample_df))) = Ok 0 /\
  fst (bill_length (set_species [] (start sample_df))) = Ok "nan mm"%string /\
  fst (bill_depth (set_species [] (start sample_df))) = Ok "nan mm"%string /\
  forall q : Q, (one_decimal q ++ " mm")%string <> "nan mm"%string.
Proof.
  split; [repeat split; reflexivity|].
  split; [vm_compute; reflexivity|].
  split; [vm_compute; reflexivity|].
  split; [vm_compute; reflexivity|].
  exact one_decimal_not_nan.
Qed.

Lemma base_never_mutated_witness :
  session_ok sample_df (start sample_df) /\
  let trace := [Render Count; MassChanged 4000; Render SummaryStatistics;
                SpeciesChanged ["Gentoo"%string]; Render BillLength;
                Render LengthDepth; Render BillDepth] in
  nth_error (heap (run (start sample_df) trace)) df = Some sample_df /\
  (forall l x, nth_error (heap (start sample_df)) l = Some x ->
               nth_error (heap (run (start sample_df) trace)) l = Some x) /\
  (exists r s',
     filtered_df_body (start sample_df) = (Ok r, s') /\
     nth_error (heap (start sample_df)) r = None /\
     nth_error (heap s') r =
       Some (view_of sample_df (species_value (start sample_df))
                     (mass_value (start sample_df)))).
Proof.
  assert (Hok : session_ok sample_df (start sample_df))
    by (repeat split; reflexivity).
  split; [exact Hok|].
  exact (base_never_mutated sample_df (start sample_df) _ Hok).
Defined.


Lemma view_is_current_after_any_trace_witness :
  penguins_schema sample_df = true /\
  exists v s',
    reads_view (run (start sample_df) sample_trace) v s' /\
    forall r, In r (rows v) <->
              In r (rows sample_df) /\
              satisfies sample_df
                        (species_value (run (start sample_df) sample_trace))
                        (mass_value (run (start sample_df) sample_trace)) r.
Proof.
  split; [reflexivity|].
  exact (view_is_current_after_any_trace sample_df sample_trace eq_refl).
Defined.

(** ** The accuracy of the float64 mean *)

Local Open Scope Q_scope.

Lemma up2_pos e : (0 < up2 e)%Z.
Proof. unfold up2. apply Z.pow_pos_nonneg; lia. Qed.
Lemma down2_pos e : (0 < down2 e)%Z.
Proof. unfold down2. apply Z.pow_pos_nonneg; lia. Qed.

Lemma up_down_diff (e x y : Z) :
  (0 <= x)%Z -> (0 <= y)%Z -> (e = x - y)%Z ->
  (up2 e * 2 ^ y = down2 e * 2 ^ x)%Z.
Proof.
  intros Hx Hy He. unfold up2, down2.
  destruct (Z.le_ge_cases 0 e) as [H|H].
  - rewrite (Z.max_l e 0), (Z.max_r (- e) 0), Z.pow_0_r by lia.
    rewrite <- Z.pow_add_r by lia. replace (e + y)%Z with x by lia. lia.
  - rewrite (Z.max_r e 0), (Z.max_l (- e) 0), Z.pow_0_r by lia.
    rewrite <- Z.pow_add_r by lia. replace (- e + x)%Z with y by lia. lia.
Qed.

Lemma up_down_succ (e : Z) :
  (up2 (e + 1) * down2 e = 2 * up2 e * down2 (e + 1))%Z.
Proof.
  unfold up2, down2.
  destruct (Z.le_ge_cases 0 e) as [H|H].
  - rewrite (Z.max_l e 0), (Z.max_r (- e) 0), (Z.max_l (e + 1) 0),
      (Z.max_r (- (e + 1)) 0), Z.pow_0_r by lia.
    rewrite Z.pow_add_r by lia. lia.
  - destruct (Z.eq_dec e 0) as [->|Hne]; [reflexivity|].
    rewrite (Z.max_r e 0), (Z.max_l (- e) 0), (Z.max_r (e + 1) 0),
      (Z.max_l (- (e + 1)) 0), Z.pow_0_r by lia.
    replace (- e)%Z with (1 + - (e + 1))%Z at 1 by lia.
    rewrite Z.pow_add_r by lia. lia.
Qed.

Lemma scale2_frac (a d e : Z) :
  (0 < d)%Z -> scale2 a d e == (a * down2 e) # Z.to_pos (d * up2 e).
Proof.
  intros Hd. unfold scale2, up2, down2.
  destruct (Z.leb_spec 0 e) as [H|H].
  - rewrite (Z.max_l e 0), (Z.max_r (- e) 0) by lia.
    rewrite Z.pow_0_r, Z.mul_1_r. reflexivity.
  - rewrite (Z.max_r e 0), (Z.max_l (- e) 0) by lia.
    rewrite Z.pow_0_r, Z.mul_1_r. reflexivity.
Qed.

Lemma scaled_at_least (a d : Z) :
  (0 < a)%Z -> (0 < d)%Z ->
  let e0 := (Z.log2 a - Z.log2 d - 53)%Z in
  let e := if Qle_bool (inject_Z (2 ^ 53)) (scale2 a d e0)
           then (e0 + 1)%Z else e0 in
  (2 ^ 52 * (d * up2 e) <= a * down2 e)%Z.
Proof.
  intros Ha Hd e0 e.
  pose proof (Z.log2_spec a Ha) as [La _].
  pose proof (Z.log2_spec d Hd) as [_ Ld].
  pose proof (Z.log2_nonneg a) as Ka. pose proof (Z.log2_nonneg d) as Kd.
  assert (H0 : (2 ^ 52 * (d * up2 e0) <= a * down2 e0)%Z).
  { pose proof (up_down_diff e0 (Z.log2 a) (Z.log2 d + 53)
                  ltac:(lia) ltac:(lia) ltac:(unfold e0; lia)) as Hid.
    rewrite Z.pow_add_r in Hid by lia.
    replace (Z.succ (Z.log2 d)) with (Z.log2 d + 1)%Z in Ld by lia.
    rewrite Z.pow_add_r in Ld by lia.
    pose proof (up2_pos e0). pose proof (down2_pos e0).
    change (2 ^ 53)%Z with (2 ^ 52 * 2)%Z in Hid.
    change (2 ^ 1)%Z with 2%Z in Ld.
    nia. }
  unfold e. destruct (Qle_bool (inject_Z (2 ^ 53)) (scale2 a d e0)) eqn:Hb;
    [|exact H0].
  apply Qle_bool_iff in Hb. rewrite (scale2_frac a d e0 Hd) in Hb.
  unfold Qle in Hb. cbn [Qnum Qden inject_Z] in Hb.
  pose proof (up2_pos e0). pose proof (down2_pos e0).
  pose proof (up2_pos (e0 + 1)). pose proof (down2_pos (e0 + 1)).
  rewrite Z2Pos.id in Hb by nia.
  pose proof (up_down_succ e0) as Hs.
  change (2 ^ 53)%Z with (2 ^ 52 * 2)%Z in Hb.
  assert (Hmul : (2 ^ 52 * (d * up2 (e0 + 1)) * down2 e0
                  <= a * down2 (e0 + 1) * down2 e0)%Z).
  { replace (2 ^ 52 * (d * up2 (e0 + 1)) * down2 e0)%Z
      with (2 ^ 52 * d * (up2 (e0 + 1) * down2 e0))%Z by ring.
    rewrite Hs. nia. }
  apply Z.mul_le_mono_pos_r in Hmul; assumption.
Qed.

Lemma f64_round_error (q : Q) :
  Qabs (f64_round q - q) <= f64_unit * Qabs q.
Proof.
  destruct q as [n dd]. unfold f64_round. cbn [Qnum Qden].
  destruct (Z.eqb_spec n 0) as [->|Hn].
  - unfold Qle. cbn. lia.
  - set (a := Z.abs n). set (d := Z.pos dd).
    assert (Ha : (0 < a)%Z) by (unfold a; lia).
    assert (Hd : (0 < d)%Z) by (unfold d; lia).
    pose proof (scaled_at_least a d Ha Hd) as Hge. cbv zeta in Hge.
    set (e := if Qle_bool (inject_Z (2 ^ 53))
                   (scale2 a d (Z.log2 a - Z.log2 d - 53))
              then (Z.log2 a - Z.log2 d - 53 + 1)%Z
              else (Z.log2 a - Z.log2 d - 53)%Z) in *.
    pose proof (round_half_even_nearest (scale2 a d e)) as [Hlo Hhi].
    set (m := round_half_even (scale2 a d e)) in *.
    rewrite (scale2_frac a d e Hd) in Hlo, Hhi.
    pose proof (up2_pos e) as HU. pose proof (down2_pos e) as HD.
    unfold Qle, Qminus, Qplus, Qopp in Hlo, Hhi.
    cbn [Qnum Qden inject_Z] in Hlo, Hhi.
    rewrite Z2Pos.id in Hlo, Hhi by nia.
    assert (Hr : (if (0 <=? e)%Z
                  then inject_Z (m * 2 ^ e)
                  else m # Z.to_pos (2 ^ (- e)))
                 == (m * up2 e) # Z.to_pos (down2 e)).
    { unfold up2, down2. destruct (Z.leb_spec 0 e) as [H|H].
      - rewrite (Z.max_l e 0), (Z.max_r (- e) 0), Z.pow_0_r by lia. reflexivity.
      - rewrite (Z.max_r e 0), (Z.max_l (- e) 0), Z.pow_0_r, Z.mul_1_r by lia.
        reflexivity. }
    rewrite Qred_correct.
    set (r := if (0 <=? e)%Z then inject_Z (m * 2 ^ e)
              else m # Z.to_pos (2 ^ (- e))) in *.
    apply Qabs_Qle_condition.
    assert (Hq : Qabs (n # dd) = a # dd) by reflexivity.
    rewrite Hq. clearbody r. 
    destruct (Z.ltb_spec n 0) as [Hneg|Hpos]; rewrite Hr;
      unfold Qle, Qminus, Qplus, Qopp, Qmult, f64_unit;
      cbn [Qnum Qden]; rewrite ?Pos2Z.inj_mul, ?Z2Pos.id by lia;
      fold d; change (Z.pos (2 ^ 53)) with (2 ^ 53)%Z;
      change (2 ^ 53)%Z with (2 ^ 52 * 2)%Z;
      unfold a in *; split; nia.
Qed.

Lemma f64_unit_pos : 0 < f64_unit.
Proof. reflexivity. Qed.

Lemma error_step_nonneg (c : Q) : 0 <= c -> 0 <= error_step c.
Proof. intros Hc. unfold error_step. pose proof f64_unit_pos. nra. Qed.

Lemma Qabs_bound (x y : Q) : Qabs x <= y -> - y <= x /\ x <= y.
Proof. apply Qabs_Qle_condition. Qed.

Lemma Qabs_Qsum (l : list Q) : Qabs (Qsum l) <= Qsum (map Qabs l).
Proof.
  induction l as [|x l IH]; cbn [Qsum fold_right map].
  - discriminate.
  - fold (Qsum l). fold (Qsum (map Qabs l)).
    eapply Qle_trans; [apply Qabs_triangle|]. lra.
Qed.

Lemma Qsum_abs_nonneg (l : list Q) : 0 <= Qsum (map Qabs l).
Proof.
  induction l as [|x l IH]; cbn [Qsum fold_right map]; [discriminate|].
  fold (Qsum (map Qabs l)). pose proof (Qabs_nonneg x). lra.
Qed.

Lemma sequential_step (acc S A c x : Q) :
  0 <= c -> Qabs (acc - S) <= c * A -> Qabs S <= A ->
  Qabs (f64_round (acc + f64_round x) - (S + x)) <= error_step c * (A + Qabs x) /\
  Qabs (S + x) <= A + Qabs x.
Proof.
  intros Hc Hacc HS.
  pose proof f64_unit_pos as Hu.
  pose proof (Qabs_nonneg x) as Hx0.
  pose proof (Qabs_nonneg S) as HS0.
  assert (HA : 0 <= A) by lra.
  assert (HSx : Qabs (S + x) <= A + Qabs x).
  { eapply Qle_trans; [apply Qabs_triangle|]. lra. }
  split; [|exact HSx].
  pose proof (f64_round_error x) as Ex.
  pose proof (f64_round_error (acc + f64_round x)) as Et.
  set (x' := f64_round x) in *. set (t := acc + x') in *.
  set (acc' := f64_round t) in *. set (ax := Qabs x) in *.
  assert (HcA : 0 <= c * A) by (apply Qmult_le_0_compat; assumption).
  assert (Hcx : 0 <= c * ax) by (apply Qmult_le_0_compat; assumption).
  apply Qabs_bound in Hacc. apply Qabs_bound in Ex.
  assert (Hx : - ax <= x /\ x <= ax) by (apply Qabs_bound; apply Qle_refl).
  assert (Hs : - A <= S /\ S <= A) by (apply Qabs_bound; exact HS).
  assert (Ht : Qabs t <= (1 + c + f64_unit) * (A + ax)).
  { apply Qabs_Qle_condition. unfold t. split; nra. }
  assert (Et' : Qabs (acc' - t) <= f64_unit * ((1 + c + f64_unit) * (A + ax))).
  { eapply Qle_trans; [exact Et|]. apply Qmult_le_l; assumption. }
  apply Qabs_bound in Et'.
  apply Qabs_Qle_condition. unfold error_step. unfold t in *. split; nra.
Qed.

Lemma sequential_fold (l : list Q) :
  forall acc S A c,
    0 <= c -> Qabs (acc - S) <= c * A -> Qabs S <= A ->
    Qabs (fold_left (fun acc x => f64_round (acc + f64_round x)) l acc
          - (S + Qsum l))
    <= error_steps (length l) c * (A + Qsum (map Qabs l)).
Proof.
  induction l as [|x l IH]; intros acc S A c Hc Hacc HS.
  - cbn [fold_left Qsum fold_right map length error_steps].
    apply Qabs_bound in Hacc. apply Qabs_Qle_condition. split; lra.
  - cbn [fold_left Qsum fold_right map length error_steps].
    fold (Qsum l). fold (Qsum (map Qabs l)).
    destruct (sequential_step acc S A c x Hc Hacc HS) as [H1 H2].
    pose proof (IH _ _ _ _ (error_step_nonneg c Hc) H1 H2) as H.
    apply Qabs_bound in H. apply Qabs_Qle_condition. split; lra.
Qed.

Lemma sequential_sum_error (l : list Q) :
  Qabs (f64_sequential_sum l - Qsum l)
  <= sum_error (length l) * Qsum (map Qabs l).
Proof.
  unfold f64_sequential_sum, sum_error.
  assert (H0 : Qabs (0 - 0) <= 0 * 0) by discriminate.
  assert (H1 : Qabs 0 <= 0) by discriminate.
  pose proof (sequential_fold l 0 0 0 0 (Qle_refl 0) H0 H1) as H.
  apply Qabs_bound in H. apply Qabs_Qle_condition. split; lra.
Qed.

Lemma error_steps_nonneg (n : nat) (c : Q) : 0 <= c -> 0 <= error_steps n c.
Proof.
  revert c. induction n as [|k IH]; intros c Hc; cbn [error_steps];
    [exact Hc | apply IH, error_step_nonneg, Hc].
Qed.

Lemma Qsum_filled (name : string) (d : DataFrame) (rs : list Row) :
  Qsum (filled name d rs) == Qsum (numbers name d rs) /\
  Qsum (map Qabs (filled name d rs)) == Qsum (map Qabs (numbers name d rs)).
Proof.
  unfold filled, numbers. induction rs as [|r rs [IH1 IH2]].
  - split; reflexivity.
  - cbn [map flat_map Qsum fold_right].
    destruct (field name d r) as [[x|q|]|]; cbn [app map Qsum fold_right];
      fold (Qsum (map (fun r => match field name d r with
                                | Some (Num q) => q
                                | _ => 0
                                end) rs));
      fold (Qsum (map Qabs (map (fun r => match field name d r with
                                          | Some (Num q) => q
                                          | _ => 0
                                          end) rs)));
      rewrite IH1, IH2; split; try reflexivity; unfold Qsum; cbn [Qabs Z.abs];
      lra.
Qed.

(** With summation from left to right, the float64 mean of a column over
    some rows is the arithmetic mean of its values up to the rounding
    errors of the additions and of the division. *)
Lemma float_mean_close (name : string) (d : DataFrame) (rs : list Row) :
  numbers name d rs <> [] ->
  Qabs (float_mean name d rs - arithmetic_mean (numbers name d rs))
  <= mean_error (length rs)
     * arithmetic_mean (map Qabs (numbers name d rs)).
Proof.
  intros Hne. unfold float_mean, arithmetic_mean. rewrite length_map.
  cbn [f64_sum sequential_sum].
  set (n := inject_Z (Z.of_nat (length (numbers name d rs)))).
  assert (Hn : 0 < n).
  { unfold n. change 0 with (inject_Z 0). rewrite <- Zlt_Qlt.
    destruct (numbers name d rs); [contradiction | cbn [length]; lia]. }
  pose proof (sequential_sum_error (filled name d rs)) as Hs.
  destruct (Qsum_filled name d rs) as [E1 E2]. rewrite E1, E2 in Hs.
  replace (length (filled name d rs)) with (length rs) in Hs
    by (unfold filled; now rewrite length_map).
  pose proof (Qabs_Qsum (numbers name d rs)) as HS.
  pose proof (Qsum_abs_nonneg (numbers name d rs)) as HA.
  set (fs := f64_sequential_sum (filled name d rs)) in *.
  set (S := Qsum (numbers name d rs)) in *.
  set (A := Qsum (map Qabs (numbers name d rs))) in *.
  set (c := sum_error (length rs)) in *.
  assert (Hc : 0 <= c) by (apply error_steps_nonneg, Qle_refl).
  pose proof (f64_round_error (fs / n)) as Hm.
  set (m := f64_round (fs / n)) in *.
  assert (Hi : 0 < / n) by now apply Qinv_lt_0_compat.
  unfold Qdiv in *. set (i := / n) in *.
  pose proof f64_unit_pos as Hu.
  apply Qabs_bound in Hs. apply Qabs_bound in HS.
  assert (HAi : 0 <= A * i) by (apply Qmult_le_0_compat; lra).
  assert (HcAi : 0 <= c * (A * i)) by (apply Qmult_le_0_compat; assumption).
  assert (Hsi : - (c * (A * i)) <= (fs - S) * i /\ (fs - S) * i <= c * (A * i)).
  { split; nra. }
  assert (HSi : - (A * i) <= S * i /\ S * i <= A * i) by (split; nra).
  assert (Hfi : Qabs (fs * i) <= (1 + c) * (A * i)).
  { apply Qabs_Qle_condition. split; nra. }
  assert (Hm' : Qabs (m - fs * i) <= f64_unit * ((1 + c) * (A * i))).
  { eapply Qle_trans; [exact Hm|]. apply Qmult_le_l; assumption. }
  apply Qabs_bound in Hm'. apply Qabs_Qle_condition.
  unfold mean_error. fold c. split; nra.
Qed.

Lemma numbers_nonempty (name : string) (d : DataFrame) (rs : list Row)
      (r : Row) (q : Q) :
  In r rs -> field name d r = Some (Num q) -> numbers name d rs <> [].
Proof.
  intros Hin Hq Hnil. unfold numbers in Hnil.
  assert (Hq' : In q (flat_map (fun r => match field name d r with
                                         | Some (Num q) => [q]
                                         | _ => []
                                         end) rs)).
  { apply in_flat_map. exists r. split; [exact Hin|]. rewrite Hq. now left. }
  rewrite Hnil in Hq'. destruct Hq'.
Qed.

Lemma mean_output_accurate (name : string) (d : DataFrame) (s : Session)
      (r : Row) (q : Q) :
  session_ok d s ->
  column_all is_float name d = true ->
  In r (rows d) ->
  satisfies d (species_value s) (mass_value s) r ->
  field name d r = Some (Num q) ->
  let rs := rows (view_of d (species_value s) (mass_value s)) in
  exists m s',
    (v <- filtered_df ;;
     col <- getitem v name ;;
     m <- lift (mean col) ;;
     txt <- lift (format_1f m) ;;
     ret (txt ++ " mm")%string) s = (Ok (one_decimal m ++ " mm")%string, s') /\
    Qabs (m - arithmetic_mean (numbers name d rs))
    <= mean_error (length rs) * arithmetic_mean (map Qabs (numbers name d rs)).
Proof.
  intros Hok Hcol Hin Hsat Hq rs.
  destruct (mean_output_run name d s Hok Hcol) as (s' & Hrun).
  assert (Hne : numbers name d rs <> []).
  { apply (numbers_nonempty name d rs r q); [|exact Hq].
    apply view_of_rows_In. now split. }
  exists (float_mean name d rs), s'. split; [|now apply float_mean_close].
  rewrite Hrun. unfold mean_text. fold rs.
  destruct (numbers name d rs); [contradiction | reflexivity].
Qed.



(** For eight rows the bound is below two parts in a thousand million
    millions. *)
Example mean_error_of_8_rows : mean_error 8 <= 2 # 10 ^ 15.
Proof. vm_compute. discriminate. Qed.
